(** * Library organizer and screenshot helper: a shallow embedding

    Two scripts are modelled.

    - [generate_organization.py] (module [Organizer]): CSV rows are Python
      dictionaries from column names to [str] or [None]; every book row is
      sent to a (shelf, row) by an ordered list of keyword rules; estimated
      spine widths are accumulated per row and a utilization percentage is
      derived per shelf.
    - [frontend/scripts/selenium-screenshot.py] (module [Screenshot]): one
      browser session is opened, a page is loaded and captured, and the
      outcome is reported as a process exit status.

    Widths are Python floats in the source.  Every width the program
    produces is a multiple of a quarter inch, so binary floating point adds
    them without rounding; they are modelled as rationals ([Q]).  Python
    exceptions are modelled by an explicit [result] type. *)

From Stdlib Require Import Ascii String QArith Lqa Sorted.
From stdpp Require Import gmap strings list.

Open Scope string_scope.
Open Scope list_scope.
Open Scope Z_scope.

(** ** Exceptions and results *)

(** A dictionary key: a [str] or an [int]. *)
Inductive pykey : Type :=
| KStr (s : string)
| KInt (z : Z).

Inductive exn : Type :=
| KeyError (key : pykey)
| AttributeError (msg : string)
| ValueError (msg : string)
| ZeroDivisionError
| OSError (msg : string)
| UnicodeDecodeError (msg : string)
| CsvError (msg : string)
| TimeoutException
| WebDriverException (msg : string).

Inductive result (A : Type) : Type :=
| Ok (a : A)
| Raise (e : exn).
Arguments Ok {A} a.
Arguments Raise {A} e.

#[global] Instance result_ret : MRet result := fun A a => Ok a.
#[global] Instance result_bind : MBind result := fun A B k m =>
  match m with
  | Ok a => k a
  | Raise e => Raise e
  end.

(** [yields m] forgets which exception stopped a computation. *)
Definition yields {A} (m : result A) : option A :=
  match m with
  | Ok a => Some a
  | Raise _ => None
  end.

(** ** Python strings *)

(** A [string] stands for a Python [str] whose characters all lie below
    U+0100: each [ascii] is one character, its number the code point.
    Text with characters from U+0100 on is outside the model. *)

(** A Python value that is either a [str] or [None]. *)
Abbreviation pystr := (option string).

(** The lowercase of one character.  Below U+0100 the capitals are A-Z
    (65..90) and the Latin-1 capitals U+00C0..U+00DE without the
    multiplication sign U+00D7 (215); each has its lowercase 32 places up.
    Every other character below U+0100 lowers to itself. *)
Definition lower_ascii (c : ascii) : ascii :=
  let n := nat_of_ascii c in
  if ((65 <=? n)%nat && (n <=? 90)%nat)
     || ((192 <=? n)%nat && (n <=? 222)%nat && negb (n =? 215)%nat)
  then ascii_of_nat (n + 32) else c.

(** [str.lower()], character by character. *)
Fixpoint lower (s : string) : string :=
  match s with
  | EmptyString => EmptyString
  | String c t => String (lower_ascii c) (lower t)
  end.

(** [needle in hay]: substring containment. *)
Fixpoint contains (needle hay : string) : bool :=
  if String.prefix needle hay then true
  else match hay with
       | EmptyString => false
       | String _ t => contains needle t
       end.

(** [any(word in combined for word in words)] *)
Definition any_in (words : list string) (combined : string) : bool :=
  existsb (fun word => contains word combined) words.

(** Truthiness of a [str]-or-[None] value: [None] and [''] are false. *)
Definition truthy (s : pystr) : bool :=
  match s with
  | None => false
  | Some s => negb (String.eqb s "")
  end.

(** *** [int(str)] *)

(** The whitespace [int] skips around the number: tab to carriage return
    and the space; in a [str] that is not pure ASCII also the two spaces
    between U+0080 and U+00FF, NEL (133) and the no-break space (160), which
    the conversion first turns into spaces.  The separators 28..31 are not
    skipped. *)
Definition is_space (c : ascii) : bool :=
  let n := nat_of_ascii c in
  ((9 <=? n)%nat && (n <=? 13)%nat) || (n =? 32)%nat
  || (n =? 133)%nat || (n =? 160)%nat.

Definition digit_val (c : ascii) : option Z :=
  let n := nat_of_ascii c in
  if (48 <=? n)%nat && (n <=? 57)%nat then Some (Z.of_nat (n - 48)) else None.

Fixpoint lstrip (l : list ascii) : list ascii :=
  match l with
  | c :: t => if is_space c then lstrip t else l
  | [] => []
  end.

Definition strip (l : list ascii) : list ascii :=
  rev (lstrip (rev (lstrip l))).

(** Decimal digits, a single underscore allowed between two digits. *)
Fixpoint digits (acc : Z) (after_digit : bool) (l : list ascii) : option Z :=
  match l with
  | [] => if after_digit then Some acc else None
  | c :: t =>
      match digit_val c with
      | Some d => digits (acc * 10 + d) true t
      | None =>
          if Ascii.eqb c "_" && after_digit then digits acc false t else None
      end
  end.

(** The number of digit characters of a literal. *)
Fixpoint digit_count (l : list ascii) : Z :=
  match l with
  | [] => 0
  | c :: t =>
      match digit_val c with
      | Some _ => 1 + digit_count t
      | None => digit_count t
      end
  end.

(** [sys.get_int_max_str_digits()], at its default. *)
Definition int_max_str_digits : Z := 4300.

(** [int(s)] for a string [s]: surrounding whitespace, an optional sign,
    decimal digits, at most [int_max_str_digits] of them.  Anything else
    raises [ValueError] (the messages are shortened). *)
Definition py_int (s : string) : result Z :=
  let l := strip (list_ascii_of_string s) in
  let parsed :=
    match l with
    | c :: t =>
        if Ascii.eqb c "-" then Z.opp <$> digits 0 false t
        else if Ascii.eqb c "+" then digits 0 false t
        else digits 0 false l
    | [] => None
    end in
  match parsed with
  | Some n =>
      if int_max_str_digits <? digit_count l
      then Raise (ValueError "Exceeds the limit (4300 digits) for integer string conversion")
      else Ok n
  | None => Raise (ValueError "invalid literal for int() with base 10")
  end.

(** ** Insertion-ordered dictionaries

    The accumulators of the organizer are Python dictionaries that are
    filled once, iterated in insertion order and updated in place; they are
    kept as association lists in insertion order. *)

Section Alist.
Context {K V : Type} `{EqDecision K}.

Fixpoint alist_get (k : K) (l : list (K * V)) : option V :=
  match l with
  | [] => None
  | (k', v) :: t => if decide (k = k') then Some v else alist_get k t
  end.

(** [d[k] = v]: overwrite in place, or append a new key. *)
Fixpoint alist_set (k : K) (v : V) (l : list (K * V)) : list (K * V) :=
  match l with
  | [] => [(k, v)]
  | (k', v') :: t =>
      if decide (k = k') then (k, v) :: t else (k', v') :: alist_set k v t
  end.

Definition alist_values (l : list (K * V)) : list V := snd <$> l.
Definition alist_keys (l : list (K * V)) : list K := fst <$> l.
End Alist.

Module Organizer.

(** ** Width estimate *)

(** [estimate_book_width(pages: Optional[int]) -> float] *)
Definition estimate_book_width (pages : option Z) : Q :=
  match pages with
  | None => 1
  | Some pages =>
      if (pages =? 0) || (pages <=? 0) then 1
      else if pages <=? 100 then 1 # 2
      else if pages <=? 200 then 3 # 4
      else if pages <=? 300 then 1
      else if pages <=? 500 then 5 # 4
      else if pages <=? 750 then 3 # 2
      else 2
  end.

(** ** Records and configuration *)

(** One row as [csv.DictReader] yields it: column name to [str], or to
    [None] where the line had fewer fields than the header. *)
Abbreviation Item := (gmap string pystr).

(** [item.get(key, default)] *)
Definition dict_get (item : Item) (key : string) (default : pystr) : pystr :=
  match item !! key with
  | Some v => v
  | None => default
  end.

Record ShelfDimension := {
  sd_rows : Z;
  sd_width : Z;
  sd_depth : Z
}.

Definition SHELF_DIMENSIONS : list (string * ShelfDimension) :=
  [ ("office_a", {| sd_rows := 5; sd_width := 32; sd_depth := 26 |});
    ("office_b", {| sd_rows := 4; sd_width := 32; sd_depth := 26 |});
    ("dining",   {| sd_rows := 3; sd_width := 24; sd_depth := 24 |});
    ("hallway",  {| sd_rows := 2; sd_width := 16; sd_depth := 16 |});
    ("crate_h",  {| sd_rows := 1; sd_width := 32; sd_depth := 12 |});
    ("crate_v",  {| sd_rows := 1; sd_width := 12; sd_depth := 32 |}) ].

Definition ORGANIZATION : list (string * list (Z * string)) :=
  [ ("office_a", [ (1, "Core Language Learning");
                   (2, "Essential Programming & Math");
                   (3, "Core Science Textbooks");
                   (4, "Essential Philosophy");
                   (5, "Professional Writing & Development") ]);
    ("office_b", [ (1, "Philosophy & Political Thought");
                   (2, "Academic Textbooks & References");
                   (3, "Essays & Collections");
                   (4, "Gaming & Strategy") ]);
    ("dining",   [ (1, "Japanese Language & Asian Cooking");
                   (2, "Chinese Language & Global Cooking");
                   (3, "Other Languages & Kitchen References") ]);
    ("hallway",  [ (1, "History & Historical Works");
                   (2, "Literature, Fiction & Classics") ]);
    ("crate_h",  [ (1, "General Overflow Storage") ]);
    ("crate_v",  [ (1, "Mathematics, Science & References") ]) ].

(** ** Shelf classifiers *)

Definition Location : Type := string * Z.

(** A [categorizer_func]: title, tags, group, description, the full item. *)
Definition Categorizer : Type :=
  pystr -> pystr -> pystr -> pystr -> option Item -> result Location.

(** [title.lower()]: [None] has no such method. *)
Definition lower_method (title : pystr) : result string :=
  match title with
  | Some title => Ok (lower title)
  | None => Raise (AttributeError "'NoneType' object has no attribute 'lower'")
  end.

(** [x.lower() if x else ""] *)
Definition lower_if (x : pystr) : string :=
  match x with
  | Some x' => if truthy x then lower x' else ""
  | None => ""
  end.

(** [f"{title_lower} {tags_lower} {group_lower} {desc_lower}"] *)
Definition combine (title_lower tags_lower group_lower desc_lower : string)
  : string :=
  title_lower +:+ " " +:+ tags_lower +:+ " " +:+ group_lower +:+ " " +:+ desc_lower.

Definition categorize_book : Categorizer :=
  fun title tags group description item =>
  title_lower ← lower_method title;
  let tags_lower := lower_if tags in
  let group_lower := lower_if group in
  let desc_lower := lower_if description in
  let combined := combine title_lower tags_lower group_lower desc_lower in
  if any_in ["genki"; "tobira"; "integrated chinese"; "kanji for international"] combined
  then Ok ("office_a", 1)
  else if any_in ["algorithms"; "clean code"; "programming language"; "knuth"; "art of computer"] combined
  then Ok ("office_a", 2)
  else if any_in ["physics"; "chemistry"] combined && contains "textbook" combined
  then Ok ("office_a", 3)
  else if any_in ["kant"; "groundwork"; "nietzsche"; "republic"; "analects"] combined
  then Ok ("office_a", 4)
  else if any_in ["writer's reference"; "writing"; "professional"] combined
  then Ok ("office_a", 5)
  else if any_in ["japanese"; "chinese"; "korean"; "language"; "dictionary"; "grammar"] combined
          && negb (contains "cooking" combined)
  then
    if contains "japanese" combined || contains "kanji" combined
    then Ok ("dining", 1)
    else if contains "chinese" combined
    then Ok ("dining", 2)
    else Ok ("dining", 3)
  else if any_in ["history"; "historical"; "revolution"; "war"; "ancient"; "medieval"] combined
  then Ok ("hallway", 1)
  else if any_in ["dover"; "classics"; "poetry"; "shakespeare"; "literature"; "fiction"; "novel"] combined
  then Ok ("hallway", 2)
  else if any_in ["mathematics"; "math"; "dover"; "logic"; "science"; "reference"] combined
  then Ok ("crate_v", 1)
  else if any_in ["game"; "gaming"; "rpg"; "d&d"; "strategy"; "chess"] combined
  then Ok ("office_b", 4)
  else if any_in ["philosophy"; "political"; "ethics"; "tao"] combined
  then Ok ("office_b", 1)
  else if any_in ["textbook"; "academic"; "university"] combined
  then Ok ("office_b", 2)
  else if any_in ["uncle john"; "essay"; "anthology"; "collection"] combined
  then Ok ("office_b", 3)
  else if any_in ["cooking"; "cook"; "food"; "recipe"; "kitchen"; "culinary"] combined
  then
    if any_in ["asian"; "japanese"; "chinese"; "sushi"; "wok"] combined
    then Ok ("dining", 1)
    else if any_in ["bittman"; "international"; "global"] combined
    then Ok ("dining", 2)
    else Ok ("dining", 3)
  else Ok ("crate_h", 1).

Definition balanced_categorize_book : Categorizer :=
  fun title tags group description item =>
  title_lower ← lower_method title;
  let tags_lower := lower_if tags in
  let group_lower := lower_if group in
  let desc_lower := lower_if description in
  let combined := combine title_lower tags_lower group_lower desc_lower in
  if any_in ["genki i"; "genki ii"; "tobira"; "clean code"] combined
  then Ok ("office_a", 1)
  else if any_in ["algorithms"; "art of computer"; "programming language"] combined
  then Ok ("office_a", 2)
  else if any_in ["physics"; "chemistry"] combined && contains "textbook" combined
  then Ok ("office_a", 3)
  else if any_in ["kant"; "groundwork"; "republic"] combined
  then Ok ("office_a", 4)
  else if any_in ["writer's reference"; "writing"] combined
  then Ok ("office_a", 5)
  else if any_in ["programming"; "computer"; "software"; "math"] combined
  then Ok ("office_b", 1)
  else if any_in ["philosophy"; "political"; "ethics"] combined
  then Ok ("office_b", 2)
  else if any_in ["reference"; "textbook"; "academic"] combined
  then Ok ("office_b", 3)
  else if any_in ["game"; "gaming"; "rpg"; "chess"; "strategy"] combined
  then Ok ("office_b", 4)
  else if any_in ["cooking"; "cook"; "food"; "recipe"; "kitchen"] combined
  then Ok ("dining", 1)
  else if any_in ["japanese"; "kanji"] combined && negb (contains "cooking" combined)
  then Ok ("dining", 2)
  else if any_in ["chinese"; "korean"; "language"] combined && negb (contains "cooking" combined)
  then Ok ("dining", 3)
  else if any_in ["fiction"; "novel"; "poetry"] combined
  then Ok ("hallway", 1)
  else if any_in ["uncle john"; "essay"; "anthology"] combined
  then Ok ("hallway", 2)
  else if any_in ["history"; "historical"; "war"; "revolution"] combined
  then Ok ("crate_h", 1)
  else if any_in ["dover"; "classics"; "literature"] combined && negb (contains "japanese" combined)
  then Ok ("crate_v", 1)
  else Ok ("office_b", 2).

(** ** Space calculator *)

(** One assigned book, as appended to a row's ['items'] list. *)
Record Entry := {
  e_title : pystr;
  e_author : pystr;
  e_pages : Z;
  e_width : Q;
  e_item : Item
}.

Record RowUsage := {
  row_width : Q;
  row_items : list Entry
}.

Record ShelfUsage := {
  su_rows : list (Z * RowUsage);
  total_width : Q;
  available_width : Z;
  utilization : Q
}.

Abbreviation SpaceUsage := (list (string * ShelfUsage)).

(** [range(1, n + 1)] *)
Definition range1 (n : Z) : list Z :=
  (fun i => Z.of_nat i) <$> seq 1 (Z.to_nat n).

Definition empty_row : RowUsage := {| row_width := 0; row_items := [] |}.

Definition init_shelf (d : ShelfDimension) : ShelfUsage :=
  {| su_rows := foldl (fun rows row_num => alist_set row_num empty_row rows)
                      [] (range1 (sd_rows d));
     total_width := 0;
     available_width := sd_width d * sd_rows d;
     utilization := 0 |}.

(** The first loop of [calculate_space_usage]: one entry per shelf. *)
Definition init_usage (dims : list (string * ShelfDimension)) : SpaceUsage :=
  foldl (fun usage '(shelf_id, d) => alist_set shelf_id (init_shelf d) usage)
        [] dims.

(** [int(item.get('length', 0) or 0)], zero on [ValueError]. *)
Definition pages_of (item : Item) : Z :=
  match item !! "length" with
  | Some (Some s) =>
      if truthy (Some s)
      then match py_int s with
           | Ok n => n
           | Raise _ => 0
           end
      else 0
  | _ => 0
  end.

Definition make_entry (item : Item) : Entry :=
  let pages := pages_of item in
  {| e_title := dict_get item "title" (Some "Unknown");
     e_author := dict_get item "creators" (Some "Unknown");
     e_pages := pages;
     e_width := estimate_book_width (Some pages);
     e_item := item |}.

(** [shelf_usage[shelf_id]['rows'][row_num]['width'] += width] followed by
    the [append] on the same row. *)
Definition add_to_row (usage : SpaceUsage) (loc : Location) (e : Entry)
  : result SpaceUsage :=
  let '(shelf_id, row_num) := loc in
  match alist_get shelf_id usage with
  | None => Raise (KeyError (KStr shelf_id))
  | Some shelf =>
      match alist_get row_num (su_rows shelf) with
      | None => Raise (KeyError (KInt row_num))
      | Some row =>
          let row' := {| row_width := row_width row + e_width e;
                         row_items := row_items row ++ [e] |} in
          Ok (alist_set shelf_id
                {| su_rows := alist_set row_num row' (su_rows shelf);
                   total_width := total_width shelf;
                   available_width := available_width shelf;
                   utilization := utilization shelf |}
                usage)
      end
  end.

(** [item['item_type'] == 'book'] *)
Definition is_book (item : Item) : result bool :=
  match item !! "item_type" with
  | None => Raise (KeyError (KStr "item_type"))
  | Some v => Ok (bool_decide (v = Some "book"))
  end.

Definition classify (categorizer_func : Categorizer) (item : Item)
  : result Location :=
  categorizer_func (dict_get item "title" (Some ""))
                   (dict_get item "tags" (Some ""))
                   (dict_get item "group" (Some ""))
                   (dict_get item "description" (Some ""))
                   (Some item).

(** One iteration of the loop over [items]. *)
Definition place_item (categorizer_func : Categorizer)
    (usage : SpaceUsage) (item : Item) : result SpaceUsage :=
  book ← is_book item;
  if book : bool then
    loc ← classify categorizer_func item;
    add_to_row usage loc (make_entry item)
  else Ok usage.

Fixpoint place_items (categorizer_func : Categorizer)
    (usage : SpaceUsage) (items : list Item) : result SpaceUsage :=
  match items with
  | [] => Ok usage
  | item :: rest =>
      usage' ← place_item categorizer_func usage item;
      place_items categorizer_func usage' rest
  end.

(** [sum(row['width'] for row in rows.values())] *)
Definition sum_widths (rows : list (Z * RowUsage)) : Q :=
  foldl Qplus 0%Q (row_width <$> alist_values rows).

(** The totals of one shelf; the division raises on a zero divisor. *)
Definition finish_shelf (shelf : ShelfUsage) : result ShelfUsage :=
  let total := sum_widths (su_rows shelf) in
  if available_width shelf =? 0 then Raise ZeroDivisionError
  else Ok {| su_rows := su_rows shelf;
             total_width := total;
             available_width := available_width shelf;
             utilization := (total / inject_Z (available_width shelf)) * 100 |}.

Fixpoint finish_usage (usage : SpaceUsage) : result SpaceUsage :=
  match usage with
  | [] => Ok []
  | (shelf_id, shelf) :: rest =>
      shelf' ← finish_shelf shelf;
      rest' ← finish_usage rest;
      Ok ((shelf_id, shelf') :: rest')
  end.

Definition calculate_space_usage (items : list Item)
    (categorizer_func : option Categorizer) : result SpaceUsage :=
  let categorizer_func := default categorize_book categorizer_func in
  usage ← place_items categorizer_func (init_usage SHELF_DIMENSIONS) items;
  finish_usage usage.

(** [iterative_balance]: one pass with the balanced classifier. *)
Definition iterative_balance (items : list Item) : result (SpaceUsage * Z) :=
  space_usage ← calculate_space_usage items (Some balanced_categorize_book);
  Ok (space_usage, 1).

(** ** Report renderer: the utilization banner *)

Inductive Band : Type :=
| over_capacity
| near_capacity
| good_capacity.

(** The [if utilization > 90 ... elif utilization > 75 ... else] chain. *)
Definition status_class (utilization : Q) : Band :=
  if negb (Qle_bool utilization 90) then over_capacity
  else if negb (Qle_bool utilization 75) then near_capacity
  else good_capacity.

(** [space_usage.get(shelf_id, {}).get('utilization', 0)] *)
Definition shown_utilization (space_usage : SpaceUsage) (shelf_id : string) : Q :=
  match alist_get shelf_id space_usage with
  | Some usage => utilization usage
  | None => 0
  end.

(** The banners of the overview, one per shelf of [ORGANIZATION]. *)
Definition banners (space_usage : SpaceUsage) : list (string * Q * Band) :=
  (fun '(shelf_id, _) =>
     let u := shown_utilization space_usage shelf_id in
     (shelf_id, u, status_class u)) <$> ORGANIZATION.

(** ** CSV ingestor *)

(** What iterating [csv.DictReader] over one opened file does: it yields a
    row, reaches the end, or raises (a failing [open] raises before any
    row). *)
Inductive Reading : Type :=
| Eof
| Row (row : Item) (rest : Reading)
| Fails (e : exn).

Definition exn_message (e : exn) : string :=
  match e with
  | KeyError _ => "key"
  | AttributeError msg | ValueError msg | OSError msg
  | UnicodeDecodeError msg | CsvError msg | WebDriverException msg => msg
  | ZeroDivisionError => "division by zero"
  | TimeoutException => "Message: "
  end.

(** [row.get('item_type') in ['book', 'videogame', 'music']] *)
Definition recognized (row : Item) : bool :=
  match dict_get row "item_type" None with
  | Some kind => bool_decide (kind ∈ ["book"; "videogame"; "music"])
  | None => false
  end.

(** The [for row in reader] loop inside the [try]; [items] is the list
    bound before the [try], so it survives an exception. *)
Fixpoint read_rows (reader : Reading) (items : list Item)
  : list Item * option exn :=
  match reader with
  | Eof => (items, None)
  | Row row rest =>
      read_rows rest (if recognized row then items ++ [row] else items)
  | Fails e => (items, Some e)
  end.

(** [parse_csv_file]: the records returned and the lines printed. *)
Definition parse_csv_file (filepath : string) (reader : Reading)
  : list Item * list string :=
  let '(items, raised) := read_rows reader [] in
  match raised with
  | Some e => (items, ["Error reading " +:+ filepath +:+ ": " +:+ exn_message e])
  | None => (items, [])
  end.

(** The loop of [main] over the discovered files. *)
Fixpoint ingest (csv_files : list (string * Reading)) (all_items : list Item)
    (printed : list string) : list Item * list string :=
  match csv_files with
  | [] => (all_items, printed)
  | (csv_file, reader) :: rest =>
      let '(items, lines) := parse_csv_file csv_file reader in
      ingest rest (all_items ++ items) (printed ++ lines)
  end.

(** [[item for item in all_items if item['item_type'] == 'book']] *)
Fixpoint books_of (all_items : list Item) : result (list Item) :=
  match all_items with
  | [] => Ok []
  | item :: rest =>
      book ← is_book item;
      books ← books_of rest;
      Ok (if book : bool then item :: books else books)
  end.

(** [main] up to the rendered banners. *)
Definition main (csv_files : list (string * Reading))
  : result (list Item * SpaceUsage * list (string * Q * Band)) :=
  let '(all_items, _) := ingest csv_files [] [] in
  books ← books_of all_items;
  '(space_usage, _) ← iterative_balance books;
  Ok (all_items, space_usage, banners space_usage).

(** ** Views of a space usage, used to state its properties *)

Definition Qsum (l : list Q) : Q := foldr Qplus 0%Q l.
Arguments Qsum : simpl never.

(** Every row of every shelf, shelf after shelf. *)
Definition all_rows (usage : SpaceUsage) : list RowUsage :=
  concat ((fun p => alist_values (su_rows p.2)) <$> usage).

(** A row after one more book was put on it. *)
Definition grown_row (row : RowUsage) (e : Entry) : RowUsage :=
  {| row_width := row_width row + e_width e;
     row_items := row_items row ++ [e] |}.

(** A shelf with its totals filled in, as the last loop leaves it. *)
Definition with_totals (shelf : ShelfUsage) : ShelfUsage :=
  {| su_rows := su_rows shelf;
     total_width := sum_widths (su_rows shelf);
     available_width := available_width shelf;
     utilization :=
       (sum_widths (su_rows shelf) / inject_Z (available_width shelf)) * 100 |}.

(** The shape the configuration prescribes: per shelf, rows times width
    and the row numbers from 1 to the row count. *)
Definition configured_shape : list (string * Z * list Z) :=
  (fun p => (p.1, sd_width p.2 * sd_rows p.2, range1 (sd_rows p.2)))
    <$> SHELF_DIMENSIONS.

(** Every assigned book, row after row. *)
Definition all_entries (usage : SpaceUsage) : list Entry :=
  concat (row_items <$> all_rows usage).

(** What the first loop fixes for good: the shelves in order, each with its
    available width and its row numbers. *)
Definition shape (usage : SpaceUsage) : list (string * Z * list Z) :=
  (fun p => (p.1, available_width p.2, alist_keys (su_rows p.2))) <$> usage.

(** The records of kind "book", in input order. *)
Definition book_records (items : list Item) : list Item :=
  filter (fun item => item !! "item_type" = Some (Some "book")) items.

Definition width_of (item : Item) : Q :=
  estimate_book_width (Some (pages_of item)).

(** The record carries the item_type column. *)
Definition has_kind (item : Item) : Prop :=
  is_Some (item !! "item_type").

(** The record carries a kind and, when it is a book, its title is a string
    (a missing title column counts: the classifiers then receive ['']). *)
Definition input_record (item : Item) : Prop :=
  has_kind item /\
  (item !! "item_type" = Some (Some "book") -> item !! "title" <> Some None).

(** [loc] names a shelf and a row of the configuration. *)
Definition configured (loc : Location) : Prop :=
  exists d, alist_get loc.1 SHELF_DIMENSIONS = Some d /\ 1 <= loc.2 <= sd_rows d.

(** The classifiers that [calculate_space_usage] is called with: the
    default, named or not, and the balanced one of [iterative_balance]. *)
Definition shipped (categorizer_func : option Categorizer) : Prop :=
  categorizer_func = None \/
  categorizer_func = Some categorize_book \/
  categorizer_func = Some balanced_categorize_book.

(** ** The width table of the specification and sample records *)

(** The bands of the width table: upper bound on the page count, width. *)
Definition width_bands : list (Z * Q) :=
  [ (100, (1 # 2)%Q); (200, (3 # 4)%Q); (300, 1%Q); (500, (5 # 4)%Q);
    (750, (3 # 2)%Q) ].

Fixpoint band_width (bands : list (Z * Q)) (p : Z) : Q :=
  match bands with
  | [] => 2
  | (upper, w) :: rest => if p <=? upper then w else band_width rest p
  end.

(** The table as the specification words it: absent or non-positive page
    counts give one inch, otherwise the first band that reaches [p]. *)
Definition table_width (p : option Z) : Q :=
  match p with
  | None => 1
  | Some p => if p <=? 0 then 1 else band_width width_bands p
  end.

Definition record (fields : list (string * pystr)) : Item := list_to_map fields.

Definition genki_record : Item :=
  record [ ("item_type", Some "book"); ("title", Some "Genki I");
           ("length", Some "250") ].

Definition novel_record : Item :=
  record [ ("item_type", Some "book"); ("title", Some "Unknown Mystery Novel");
           ("tags", Some ""); ("group", Some ""); ("description", Some "") ].

(** A novel of 800 pages, and twenty of them. *)
Definition thick_novel : Item :=
  record [ ("item_type", Some "book"); ("title", Some "A Long Novel");
           ("creators", Some "Anon"); ("length", Some "800") ].

Definition hallway_load : list Item := replicate 20 thick_novel.

(** A book row cut short after its first field, and a music row. *)
Definition short_row : Item :=
  record [ ("item_type", Some "book"); ("title", None) ].

(** The same row with the empty string for a title, and a book row cut
    short after its title: tags, group and description are [None]. *)
Definition empty_title_row : Item :=
  record [ ("item_type", Some "book"); ("title", Some "") ].

Definition title_only_row : Item :=
  record [ ("item_type", Some "book"); ("title", Some "Genki I");
           ("tags", None); ("group", None); ("description", None) ].

Definition music_record : Item :=
  record [ ("item_type", Some "music"); ("title", Some "Kind of Blue") ].

Definition sample_items : list Item :=
  [ genki_record; music_record; novel_record; thick_novel ].

Definition usage_or_empty (r : result SpaceUsage) : SpaceUsage :=
  match r with
  | Ok usage => usage
  | Raise _ => []
  end.

Definition sample_usage : SpaceUsage :=
  usage_or_empty (calculate_space_usage sample_items None).

(** The hallway shelf once the twenty thick novels are placed on it by the
    balanced classifier, before its totals are computed. *)
Definition loaded_hallway : ShelfUsage :=
  default (init_shelf {| sd_rows := 2; sd_width := 16; sd_depth := 16 |})
    (alist_get "hallway"
       (usage_or_empty
          (place_items balanced_categorize_book (init_usage SHELF_DIMENSIONS)
             hallway_load))).

(** The rows a reading yields before it ends, and the exception it ends
    with, if any. *)
Fixpoint rows_read (reader : Reading) : list Item :=
  match reader with
  | Row row rest => row :: rows_read rest
  | Eof | Fails _ => []
  end.

Fixpoint raised (reader : Reading) : option exn :=
  match reader with
  | Row _ rest => raised rest
  | Eof => None
  | Fails e => Some e
  end.

(** A file whose second line cannot be decoded, and a sound one. *)
Definition broken_file : string * Reading :=
  ("library_books.csv",
   Row genki_record (Fails (UnicodeDecodeError "invalid start byte"))).

Definition sound_file : string * Reading :=
  ("library_more.csv", Row music_record (Row novel_record Eof)).

(** ** Deciding equality of results *)

#[global] Instance pykey_eq_dec : EqDecision pykey.
Proof. solve_decision. Defined.

#[global] Instance exn_eq_dec : EqDecision exn.
Proof. solve_decision. Defined.

#[global] Instance result_eq_dec {A} `{EqDecision A} : EqDecision (result A).
Proof. solve_decision. Defined.

(** The book records that [categorizer_func] sends to [loc], in input
    order. *)
Definition placed_on (categorizer_func : Categorizer) (loc : Location)
    (items : list Item) : list Item :=
  filter (fun item => classify categorizer_func item = Ok loc)
         (book_records items).

(** ** The adaptive classifier

    [create_adaptive_categorizer] closes over the utilization of an earlier
    pass; [find_best_shelf] is its helper. *)

(** [util < limit] on floats. *)
Definition Qlt_bool (x y : Q) : bool := negb (Qle_bool y x).

(** The first candidate whose shelf is used below [limit] percent. *)
Fixpoint first_under (limit : Q) (utilization_data : SpaceUsage)
    (shelves : list Location) : option Location :=
  match shelves with
  | [] => None
  | (shelf_id, row_num) :: rest =>
      if Qlt_bool (shown_utilization utilization_data shelf_id) limit
      then Some (shelf_id, row_num)
      else first_under limit utilization_data rest
  end.

(** The last resort: one pass over [SHELF_DIMENSIONS] that keeps the
    strictly smallest utilization seen; [min_util] starts at infinity
    ([None]). *)
Fixpoint least_utilized (utilization_data : SpaceUsage)
    (shelf_ids : list string) (min_util : option Q) (best_option : Location)
  : Location :=
  match shelf_ids with
  | [] => best_option
  | shelf_id :: rest =>
      let util := shown_utilization utilization_data shelf_id in
      let smaller :=
        match min_util with
        | None => true
        | Some m => Qlt_bool util m
        end in
      if smaller
      then least_utilized utilization_data rest (Some util) (shelf_id, 1)
      else least_utilized utilization_data rest min_util best_option
  end.

Definition find_best_shelf (utilization_data : SpaceUsage)
    (preferred_shelves fallback_shelves : list Location) : Location :=
  match first_under 85 utilization_data preferred_shelves with
  | Some loc => loc
  | None =>
      match (if bool_decide (fallback_shelves = []) then None
             else first_under 95 utilization_data fallback_shelves) with
      | Some loc => loc
      | None =>
          least_utilized utilization_data (alist_keys SHELF_DIMENSIONS)
            None ("office_b", 1)
      end
  end.

Definition create_adaptive_categorizer (utilization_data : SpaceUsage)
    (iteration : Z) : Categorizer :=
  fun title tags group description item =>
  title_lower ← lower_method title;
  let tags_lower := lower_if tags in
  let group_lower := lower_if group in
  let desc_lower := lower_if description in
  let combined := combine title_lower tags_lower group_lower desc_lower in
  let best := find_best_shelf utilization_data in
  if any_in ["genki i"; "genki ii"; "tobira"; "clean code"; "algorithms"] combined
  then Ok (best [("office_a", 1); ("office_a", 2)] [("office_b", 1)])
  else if any_in ["japanese"; "kanji"] combined
          && any_in ["textbook"; "dictionary"; "learning"] combined
  then Ok (best [("office_a", 1); ("dining", 1)] [("office_b", 3)])
  else if any_in ["chinese"] combined
          && any_in ["textbook"; "integrated"; "learning"] combined
  then Ok (best [("office_a", 1); ("dining", 2)] [("office_b", 3)])
  else if any_in ["programming"; "computer"; "software"] combined
  then Ok (best [("office_a", 2); ("office_b", 2)] [("crate_v", 1)])
  else if any_in ["mathematics"; "math"; "algorithms"] combined
          && negb (contains "game" combined)
  then Ok (best [("office_a", 2); ("office_b", 2); ("crate_v", 1)] [])
  else if any_in ["physics"; "chemistry"; "science"] combined
          && negb (contains "cooking" combined)
  then Ok (best [("office_a", 3); ("office_b", 2); ("crate_v", 1)] [])
  else if any_in ["philosophy"; "kant"; "nietzsche"; "plato"] combined
  then Ok (best [("office_a", 4); ("office_b", 1)] [])
  else if any_in ["history"; "historical"; "war"; "revolution"] combined
  then Ok (best [("office_b", 1); ("hallway", 1)] [("crate_h", 1)])
  else if any_in ["literature"; "fiction"; "novel"; "poetry"; "classics"] combined
  then Ok (best [("office_b", 3); ("hallway", 2)] [("crate_h", 1)])
  else if any_in ["language"; "dictionary"; "grammar"] combined
          && negb (contains "cooking" combined)
  then Ok (best [("dining", 3); ("office_b", 3)] [("crate_v", 1)])
  else if any_in ["game"; "gaming"; "rpg"; "chess"; "strategy"] combined
  then Ok (best [("office_b", 4)] [("crate_h", 1)])
  else if any_in ["cooking"; "cook"; "food"; "recipe"; "kitchen"] combined
  then
    if any_in ["asian"; "japanese"; "chinese"; "sushi"] combined
    then Ok (best [("dining", 1)] [("dining", 3)])
    else Ok (best [("dining", 2); ("dining", 3)] [])
  else if any_in ["uncle john"; "essay"; "anthology"; "collection"] combined
  then Ok (best [("office_b", 3); ("hallway", 2)] [("crate_h", 1)])
  else Ok (best [("office_b", 1); ("office_b", 2); ("office_b", 3)]
                [("crate_h", 1)]).

(** ** Console report and collection summary *)

(** [[item for item in all_items if item['item_type'] == kind]] *)
Fixpoint items_of_kind (kind : string) (all_items : list Item)
  : result (list Item) :=
  match all_items with
  | [] => Ok []
  | item :: rest =>
      match item !! "item_type" with
      | None => Raise (KeyError (KStr "item_type"))
      | Some v =>
          kept ← items_of_kind kind rest;
          Ok (if bool_decide (v = Some kind) then item :: kept else kept)
      end
  end.

(** The three counts of the collection summary in [generate_html]: books,
    video games, music. *)
Definition collection_summary (all_items : list Item) : result (nat * nat * nat) :=
  books ← items_of_kind "book" all_items;
  videogames ← items_of_kind "videogame" all_items;
  music ← items_of_kind "music" all_items;
  Ok (length books, length videogames, length music).

(** The word [main] prints beside a shelf's utilization. *)
Inductive ConsoleStatus : Type :=
| Good
| Over.

(** ["Good" if util <= 100 else "Over"] *)
Definition console_status (util : Q) : ConsoleStatus :=
  if Qle_bool util 100 then Good else Over.

(** The [over_capacity] list of [iterative_balance]. *)
Definition shelves_over_capacity (space_usage : SpaceUsage) : list (string * Q) :=
  omap (fun p : string * ShelfUsage =>
          if negb (Qle_bool (utilization p.2) 100)
          then Some (p.1, utilization p.2) else None)
       space_usage.

(** A book row whose title is [None]. *)
Definition untitled_book (item : Item) : Prop :=
  item !! "item_type" = Some (Some "book") /\ item !! "title" = Some None.

(** ** Report renderer: the shelf sections

    The rows of the report are modelled as data: which books a row lists,
    in which order, and what each cell holds.  The surrounding markup and
    the formatting of numbers are not modelled. *)

(** The exceptions of the renderer. *)
Inductive html_exn : Type :=
| HtmlTypeError (msg : string)
| HtmlAttributeError (msg : string).

Inductive rendered (A : Type) : Type :=
| Rendered (a : A)
| RenderError (e : html_exn).
Arguments Rendered {A} a.
Arguments RenderError {A} e.

#[global] Instance rendered_ret : MRet rendered := fun A a => Rendered a.
#[global] Instance rendered_bind : MBind rendered := fun A B k m =>
  match m with
  | Rendered a => k a
  | RenderError e => RenderError e
  end.

Definition escape_char (c : ascii) : string :=
  if Ascii.eqb c "&" then "&amp;"
  else if Ascii.eqb c "<" then "&lt;"
  else if Ascii.eqb c ">" then "&gt;"
  else if Ascii.eqb c (ascii_of_nat 34) then "&quot;"
  else if Ascii.eqb c "'" then "&#x27;"
  else String c "".

(** [html.escape(s)] on a string. *)
Fixpoint html_escape (s : string) : string :=
  match s with
  | EmptyString => EmptyString
  | String c t => escape_char c +:+ html_escape t
  end.

(** [html.escape(v)]: [None] has no [replace]. *)
Definition escape_cell (v : pystr) : rendered string :=
  match v with
  | Some s => Rendered (html_escape s)
  | None =>
      RenderError (HtmlAttributeError
                     "'NoneType' object has no attribute 'replace'")
  end.

(** The sort key [x['title']], for entries whose titles are strings. *)
Definition title_key (e : Entry) : string := default "" (e_title e).

(** A stable insertion by the [<] of the keys. *)
Fixpoint insert_by_title (e : Entry) (sorted : list Entry) : list Entry :=
  match sorted with
  | [] => [e]
  | e' :: rest =>
      if String.ltb (title_key e') (title_key e)
      then e' :: insert_by_title e rest
      else e :: e' :: rest
  end.

Fixpoint sort_by_title (row_books : list Entry) : list Entry :=
  match row_books with
  | [] => []
  | e :: rest => insert_by_title e (sort_by_title rest)
  end.

(** [sorted(row_books, key=lambda x: x['title'])]: a stable sort; as soon
    as two books are compared, a [None] title raises [TypeError]. *)
Definition sorted_by_title (row_books : list Entry) : rendered (list Entry) :=
  if (2 <=? length row_books)%nat
     && existsb (fun e => bool_decide (e_title e = None)) row_books
  then RenderError (HtmlTypeError "'<' not supported between instances")
  else Rendered (sort_by_title row_books).

(** One line of a row's table: the escaped title and author, the page count
    ([None] where the report prints "Unknown"), the width. *)
Record BookLine := {
  bl_title : string;
  bl_author : string;
  bl_pages : option Z;
  bl_width : Q
}.

Definition book_line (book : Entry) : rendered BookLine :=
  title ← escape_cell (e_title book);
  author ← escape_cell (e_author book);
  Rendered {| bl_title := title;
              bl_author := author;
              bl_pages := if 0 <? e_pages book then Some (e_pages book) else None;
              bl_width := e_width book |}.

Fixpoint book_lines (books : list Entry) : rendered (list BookLine) :=
  match books with
  | [] => Rendered []
  | book :: rest =>
      line ← book_line book;
      lines ← book_lines rest;
      Rendered (line :: lines)
  end.

(** One row of a shelf section: number, name, width, the count shown in the
    header, the lines. *)
Record RowSection := {
  rs_num : Z;
  rs_name : string;
  rs_width : Q;
  rs_count : nat;
  rs_lines : list BookLine
}.

(** [usage.get('rows', {}).get(row_num, {})] with the defaults of its two
    lookups. *)
Definition row_usage_of (usage : option ShelfUsage) (row_num : Z) : RowUsage :=
  match usage with
  | Some shelf => default empty_row (alist_get row_num (su_rows shelf))
  | None => empty_row
  end.

Definition row_section (usage : option ShelfUsage) (row : Z * string)
  : rendered RowSection :=
  let row_usage := row_usage_of usage row.1 in
  books ← sorted_by_title (row_items row_usage);
  lines ← book_lines books;
  Rendered {| rs_num := row.1;
              rs_name := row.2;
              rs_width := row_width row_usage;
              rs_count := length (row_items row_usage);
              rs_lines := lines |}.

Fixpoint row_sections (usage : option ShelfUsage) (shelf_rows : list (Z * string))
  : rendered (list RowSection) :=
  match shelf_rows with
  | [] => Rendered []
  | row :: rest =>
      section ← row_section usage row;
      sections ← row_sections usage rest;
      Rendered (section :: sections)
  end.

(** The shelf sections of [generate_html], in the order of
    [ORGANIZATION]. *)
Fixpoint shelf_sections (space_usage : SpaceUsage)
    (organization : list (string * list (Z * string)))
  : rendered (list (string * list RowSection)) :=
  match organization with
  | [] => Rendered []
  | (shelf_id, shelf_rows) :: rest =>
      rows ← row_sections (alist_get shelf_id space_usage) shelf_rows;
      shelves ← shelf_sections space_usage rest;
      Rendered ((shelf_id, rows) :: shelves)
  end.

(** Every line of the report, section after section. *)
Definition report_lines (sections : list (string * list RowSection))
  : list BookLine :=
  concat ((fun p => concat (rs_lines <$> p.2)) <$> sections).

(** A character that opens or closes markup or an attribute value. *)
Definition markup_char (c : ascii) : bool :=
  Ascii.eqb c "<" || Ascii.eqb c ">" || Ascii.eqb c (ascii_of_nat 34)
  || Ascii.eqb c "'".

Definition markup_free (s : string) : Prop :=
  Forall (fun c => markup_char c = false) (list_ascii_of_string s).

(** The books a report lists, section after section, from the usage. *)
Definition listed_entries (space_usage : SpaceUsage)
    (organization : list (string * list (Z * string))) : list Entry :=
  concat ((fun p : string * list (Z * string) =>
             concat ((fun row : Z * string =>
                        sort_by_title
                          (row_items
                             (row_usage_of (alist_get p.1 space_usage) row.1)))
                       <$> p.2))
            <$> organization).

(** Never descending: the next title is not below the one before. *)
Definition title_ascending (a b : Entry) : Prop :=
  String.ltb (title_key b) (title_key a) = false.

Definition sections_or_empty
    (r : rendered (list (string * list RowSection)))
  : list (string * list RowSection) :=
  match r with
  | Rendered sections => sections
  | RenderError _ => []
  end.

Definition sample_sections : list (string * list RowSection) :=
  sections_or_empty (shelf_sections sample_usage ORGANIZATION).

Definition sample_row_section : RowSection :=
  match row_section (alist_get "hallway" sample_usage)
          (2, "Literature, Fiction & Classics") with
  | Rendered section => section
  | RenderError _ =>
      {| rs_num := 0; rs_name := ""; rs_width := 0; rs_count := 0;
         rs_lines := [] |}
  end.

(** A book row cut short before its creators column. *)
Definition authorless_book : Item :=
  record [ ("item_type", Some "book"); ("title", Some "Ulysses <annotated>");
           ("creators", None) ].

End Organizer.

Module Screenshot.

(** ** Screenshot capture

    How the calls made on the browser go.  [save_screenshot] is WebDriver's:
    it returns [True], or [False] when writing the image file fails with an
    [IOError]; any call may raise. *)
Record Browser := {
  chrome : result unit;
  get : result unit;
  until_ready : result unit;
  save_screenshot : result bool;
  quit : result unit
}.

(** [time.sleep(secs)] *)
Definition sleep (secs : Z) : result unit :=
  if secs <? 0 then Raise (ValueError "sleep length must be non-negative")
  else Ok ().

(** The body of the [try]: whether a driver was bound, and how it ended. *)
Definition try_body (env : Browser) (wait_seconds : Z) : bool * result bool :=
  match chrome env with
  | Raise e => (false, Raise e)
  | Ok _ =>
      (true,
       _ ← get env;
       _ ← until_ready env;
       _ ← sleep wait_seconds;
       _ ← save_screenshot env;
       Ok true)
  end.

(** [except Exception: return False] *)
Definition except_exception (r : result bool) : result bool :=
  match r with
  | Ok b => Ok b
  | Raise _ => Ok false
  end.

(** [finally: if driver: driver.quit()] *)
Definition finally_quit (env : Browser) (driver : bool) (r : result bool)
  : result bool :=
  if driver then
    match quit env with
    | Ok _ => r
    | Raise e => Raise e
    end
  else r.

Definition capture_screenshot (env : Browser) (wait_seconds : Z) : result bool :=
  let '(driver, r) := try_body env wait_seconds in
  finally_quit env driver (except_exception r).

(** [main]: the exit status passed to [sys.exit]. *)
Definition main (argv : list string) (env : Browser) : result Z :=
  if (length argv <? 3)%nat then Ok 1
  else
    wait ← match argv !! 3%nat with
           | Some a => py_int a
           | None => Ok 20
           end;
    success ← capture_screenshot env wait;
    Ok (if success : bool then 0 else 1).

(** The status the process ends with: an uncaught exception ends it with
    status 1. *)
Definition exit_code (r : result Z) : Z :=
  match r with
  | Ok status => status
  | Raise _ => 1
  end.


(** A browser that loads and renders the page but cannot write the image
    file, and one whose page never becomes ready. *)
Definition write_fails : Browser :=
  {| chrome := Ok (); get := Ok (); until_ready := Ok ();
     save_screenshot := Ok false; quit := Ok () |}.

Definition never_ready : Browser :=
  {| chrome := Ok (); get := Ok (); until_ready := Raise TimeoutException;
     save_screenshot := Ok true; quit := Ok () |}.

Definition sample_argv : list string :=
  [ "selenium-screenshot.py"; "http://localhost:8080"; "/no/such/dir/shot.png";
    "0" ].

(** ** The calls made on the browser

    The same function with the calls it makes written down in order. *)

Inductive Call : Type :=
| CallChrome
| CallGet
| CallUntil
| CallSleep
| CallSave
| CallQuit.

#[global] Instance Call_eq_dec : EqDecision Call.
Proof. solve_decision. Defined.




End Screenshot.

(** * Properties *)

Import Organizer.

Section Width.

Lemma estimate_book_width_boundaries :
  estimate_book_width (Some 99) = (1 # 2)%Q /\
  estimate_book_width (Some 100) = (1 # 2)%Q /\
  estimate_book_width (Some 101) = (3 # 4)%Q /\
  estimate_book_width (Some 200) = (3 # 4)%Q /\
  estimate_book_width (Some 201) = 1%Q /\
  estimate_book_width (Some 300) = 1%Q /\
  estimate_book_width (Some 301) = (5 # 4)%Q /\
  estimate_book_width (Some 500) = (5 # 4)%Q /\
  estimate_book_width (Some 501) = (3 # 2)%Q /\
  estimate_book_width (Some 750) = (3 # 2)%Q /\
  estimate_book_width (Some 751) = 2%Q /\
  estimate_book_width (Some 0) = 1%Q /\
  estimate_book_width (Some (-5)) = 1%Q /\
  estimate_book_width None = 1%Q.
Proof. repeat split. Qed.

Lemma width_as_table (p : option Z) :
  estimate_book_width p = table_width p.
Proof.
  destruct p as [n|]; [|reflexivity].
  unfold estimate_book_width, table_width, width_bands, band_width.
  destruct (Z.leb_spec n 0) as [H0|H0].
  - now rewrite orb_true_r.
  - assert ((n =? 0) = false) as -> by (apply Z.eqb_neq; lia).
    reflexivity.
Qed.

(** C1: for every optional page count the estimated width is exactly the
    entry of the width table: one inch when the count is absent or not
    positive, otherwise the width of the first band (100, 200, 300, 500,
    750 pages, each bound inclusive) that reaches it, and two inches
    beyond the last band. *)
Theorem estimate_book_width_table (p : option Z) :
  estimate_book_width p = table_width p.
Proof. apply width_as_table. Qed.

(** The bands spelled out as inequalities. *)
Lemma estimate_book_width_bands (n : Z) :
  (n <= 0 -> estimate_book_width (Some n) = 1%Q) /\
  ((0 < n <= 100) -> estimate_book_width (Some n) = (1 # 2)%Q) /\
  ((100 < n <= 200) -> estimate_book_width (Some n) = (3 # 4)%Q) /\
  ((200 < n <= 300) -> estimate_book_width (Some n) = 1%Q) /\
  ((300 < n <= 500) -> estimate_book_width (Some n) = (5 # 4)%Q) /\
  ((500 < n <= 750) -> estimate_book_width (Some n) = (3 # 2)%Q) /\
  (750 < n -> estimate_book_width (Some n) = 2%Q).
Proof.
  rewrite width_as_table.
  unfold table_width, width_bands, band_width.
  repeat split; intros;
    repeat match goal with
           | |- context [?a <=? ?b] => destruct (Z.leb_spec a b); try lia
           end; reflexivity.
Qed.

(** C3, as stated, fails: zero pages give one inch, fifty pages half an
    inch. *)
Lemma estimate_book_width_not_monotone :
  0 <= 50 /\
  ~ Qle (estimate_book_width (Some 0)) (estimate_book_width (Some 50)).
Proof. split; [lia | intros H; now apply H]. Qed.

(** C3, amended: on positive page counts the estimated width is
    non-decreasing. *)
Theorem estimate_book_width_monotone_pos (p q : Z) :
  0 < p -> p <= q ->
  Qle (estimate_book_width (Some p)) (estimate_book_width (Some q)).
Proof.
  intros Hp Hpq.
  rewrite !width_as_table.
  unfold table_width, width_bands, band_width.
  repeat match goal with
         | |- context [?a <=? ?b] => destruct (Z.leb_spec a b); try lia
         end; unfold Qle; simpl; lia.
Qed.

Lemma estimate_book_width_monotone_pos_witness :
  Qle (estimate_book_width (Some 100)) (estimate_book_width (Some 101)).
Proof. apply (estimate_book_width_monotone_pos 100 101); lia. Defined.

End Width.

Section Classifier.

(** The first rule of the balanced classifier fires on any combined text
    that starts with the lowered title "genki i". *)
Lemma balanced_genki (tags group description : pystr) (item : option Item) :
  balanced_categorize_book (Some "Genki I") tags group description item
  = Ok ("office_a", 1).
Proof. reflexivity. Qed.

(** C4, as stated, fails: the record is sent to office_a row 1, but 250
    pages fall in the band up to 300 pages, which is one inch wide, not
    three quarters. *)
Lemma genki_width_is_not_three_quarters :
  classify balanced_categorize_book genki_record = Ok ("office_a", 1) /\
  pages_of genki_record = 250 /\
  ~ Qeq (estimate_book_width (Some 250)) (3 # 4).
Proof. repeat split. intros H. discriminate H. Qed.

(** C4, amended: a book record titled "Genki I" with 250 pages is sent by
    the classifier of the main flow to office_a row 1, and its estimated
    width is one inch. *)
Theorem genki_office_a_row_1_one_inch (item : Item) :
  item !! "item_type" = Some (Some "book") ->
  item !! "title" = Some (Some "Genki I") ->
  item !! "length" = Some (Some "250") ->
  classify balanced_categorize_book item = Ok ("office_a", 1) /\
  e_pages (make_entry item) = 250 /\
  e_width (make_entry item) = 1%Q /\
  place_item balanced_categorize_book (init_usage SHELF_DIMENSIONS) item
  = add_to_row (init_usage SHELF_DIMENSIONS) ("office_a", 1) (make_entry item).
Proof.
  intros Hkind Htitle Hlen.
  assert (classify balanced_categorize_book item = Ok ("office_a", 1)) as Hc.
  { unfold classify, dict_get. rewrite Htitle. apply balanced_genki. }
  assert (pages_of item = 250) as Hp.
  { unfold pages_of. rewrite Hlen. reflexivity. }
  repeat split; try assumption.
  - unfold make_entry. simpl. rewrite Hp. reflexivity.
  - unfold place_item, is_book. rewrite Hkind. simpl. rewrite Hc. reflexivity.
Qed.

Lemma genki_office_a_row_1_one_inch_witness :
  classify balanced_categorize_book genki_record = Ok ("office_a", 1) /\
  e_pages (make_entry genki_record) = 250 /\
  e_width (make_entry genki_record) = 1%Q /\
  place_item balanced_categorize_book (init_usage SHELF_DIMENSIONS) genki_record
  = add_to_row (init_usage SHELF_DIMENSIONS) ("office_a", 1)
      (make_entry genki_record).
Proof. apply (genki_office_a_row_1_one_inch genki_record); reflexivity. Defined.

(** C5, as stated, fails: the classifier of the main flow sends the record
    to hallway row 1. *)
Lemma novel_is_not_sent_to_hallway_row_2 :
  classify balanced_categorize_book novel_record = Ok ("hallway", 1) /\
  classify balanced_categorize_book novel_record <> Ok ("hallway", 2).
Proof. split; [reflexivity | discriminate]. Qed.

(** C5, amended: the record titled "Unknown Mystery Novel" with empty
    tags, group and description is sent to hallway row 1 by the classifier
    of the main flow; the default rule list, where the literature rule is
    the first to match "novel", sends it to hallway row 2. *)
Theorem novel_hallway_row_1 :
  classify balanced_categorize_book novel_record = Ok ("hallway", 1) /\
  (exists usage,
      iterative_balance [novel_record] = Ok (usage, 1) /\
      (exists shelf row,
          alist_get "hallway" usage = Some shelf /\
          alist_get 1 (su_rows shelf) = Some row /\
          row_items row = [make_entry novel_record])) /\
  classify categorize_book novel_record = Ok ("hallway", 2).
Proof.
  split; [reflexivity|]. split; [|reflexivity].
  eexists. split; [vm_compute; reflexivity|].
  eexists. eexists. repeat split.
Qed.

End Classifier.

Section Banner.

Lemma status_class_bands (u : Q) :
  (status_class u = over_capacity <-> (90 < u)%Q) /\
  (status_class u = near_capacity <-> (75 < u)%Q /\ (u <= 90)%Q) /\
  (status_class u = good_capacity <-> (u <= 75)%Q).
Proof.
  unfold status_class.
  destruct (Qle_bool u 90) eqn:H90; destruct (Qle_bool u 75) eqn:H75; simpl.
  all: try (apply Qle_bool_iff in H90).
  all: try (apply Qle_bool_iff in H75).
  all: try (assert (~ (u <= 90)%Q) as N90
             by (rewrite <- Qle_bool_iff; congruence)).
  all: try (assert (~ (u <= 75)%Q) as N75
             by (rewrite <- Qle_bool_iff; congruence)).
  all: try (apply Qnot_le_lt in N90).
  all: try (apply Qnot_le_lt in N75).
  all: repeat split; intros; try discriminate; try reflexivity; try lra.
Qed.

Lemma banners_elem (space_usage : SpaceUsage) (shelf_id : string) (u : Q)
    (band : Band) :
  (shelf_id, u, band) ∈ banners space_usage ->
  u = shown_utilization space_usage shelf_id /\ band = status_class u.
Proof.
  unfold banners. intros H. apply list_elem_of_fmap in H as [[id names] [E _]].
  now inversion E.
Qed.

Lemma finish_shelf_utilization (shelf : ShelfUsage) :
  available_width shelf <> 0 ->
  exists shelf',
    finish_shelf shelf = Ok shelf' /\
    su_rows shelf' = su_rows shelf /\
    available_width shelf' = available_width shelf /\
    total_width shelf' = sum_widths (su_rows shelf) /\
    utilization shelf'
    = (sum_widths (su_rows shelf) / inject_Z (available_width shelf) * 100)%Q.
Proof.
  intros H. unfold finish_shelf.
  destruct (Z.eqb_spec (available_width shelf) 0) as [E|_]; [contradiction|].
  eexists. repeat split.
Qed.

(** Every shelf of [ORGANIZATION] gets its banner, in order. *)
Lemma banners_keys (space_usage : SpaceUsage) :
  (fun b : string * Q * Band => b.1.1) <$> banners space_usage
  = alist_keys ORGANIZATION.
Proof.
  unfold banners, alist_keys. rewrite <- list_fmap_compose.
  apply list_fmap_ext. now intros _ [shelf_id rows] _.
Qed.

Lemma banners_intro (space_usage : SpaceUsage) (shelf_id : string) :
  shelf_id ∈ alist_keys ORGANIZATION ->
  (shelf_id, shown_utilization space_usage shelf_id,
   status_class (shown_utilization space_usage shelf_id))
    ∈ banners space_usage.
Proof.
  unfold alist_keys, banners. intros H.
  apply list_elem_of_fmap in H as ([id rows] & -> & Hin).
  apply list_elem_of_fmap. exists (id, rows). split; [reflexivity | exact Hin].
Qed.

(** What [finish_shelf] computes for a shelf of 32 inches that holds 40. *)
Lemma finish_shelf_32_40 (shelf : ShelfUsage) :
  available_width shelf = 32 ->
  Qeq (sum_widths (su_rows shelf)) 40 ->
  exists shelf',
    finish_shelf shelf = Ok shelf' /\
    Qeq (utilization shelf') 125 /\
    status_class (utilization shelf') = over_capacity.
Proof.
  intros Ha Hs.
  destruct (finish_shelf_utilization shelf) as (shelf' & Hf & _ & _ & _ & Hu).
  { rewrite Ha. discriminate. }
  assert (Qeq (utilization shelf') 125) as H125.
  { rewrite Hu, Ha, Hs. reflexivity. }
  exists shelf'. repeat split; try assumption.
  apply status_class_bands. rewrite H125. reflexivity.
Qed.

(** Twenty books of two inches each on the hallway shelf, through the main
    flow. *)
Lemma hallway_banner_over_capacity :
  exists usage,
    iterative_balance hallway_load = Ok (usage, 1) /\
    Qeq (shown_utilization usage "hallway") 125 /\
    ("hallway", shown_utilization usage "hallway", over_capacity)
      ∈ banners usage.
Proof.
  eexists. split; [vm_compute; reflexivity|]. split; [reflexivity|].
  do 3 right. left.
Qed.

End Banner.

(** * Insertion-ordered dictionaries: lookup and update *)

Section AlistFacts.
Context {K V : Type} `{EqDecision K}.
Implicit Types (k : K) (v : V) (l : list (K * V)).

Lemma alist_get_split k l v0 :
  alist_get k l = Some v0 ->
  exists l1 l2,
    l = l1 ++ (k, v0) :: l2 /\
    forall v, alist_set k v l = l1 ++ (k, v) :: l2.
Proof.
  induction l as [|[k' v'] l IH]; simpl; [discriminate|].
  destruct (decide (k = k')) as [<-|Hne].
  - intros [= ->]. exists [], l. split; [reflexivity|]. intros v. reflexivity.
  - intros Hg. destruct (IH Hg) as (l1 & l2 & -> & Hset).
    exists ((k', v') :: l1), l2. split; [reflexivity|].
    intros v. simpl. now rewrite Hset.
Qed.

Lemma alist_get_set_eq k v l : alist_get k (alist_set k v l) = Some v.
Proof.
  induction l as [|[k' v'] l IH]; simpl.
  - now rewrite decide_True.
  - destruct (decide (k = k')) as [<-|Hne]; simpl.
    + now rewrite decide_True.
    + now rewrite decide_False.
Qed.

Lemma alist_get_set_ne k k' v l :
  k <> k' -> alist_get k' (alist_set k v l) = alist_get k' l.
Proof.
  intros Hne. induction l as [|[k0 v0] l IH]; simpl.
  - rewrite decide_False; [reflexivity | congruence].
  - destruct (decide (k = k0)) as [<-|Hne0]; simpl.
    + rewrite !decide_False; congruence.
    + destruct (decide (k' = k0)); [reflexivity | apply IH].
Qed.

Lemma alist_keys_set k v l v0 :
  alist_get k l = Some v0 -> alist_keys (alist_set k v l) = alist_keys l.
Proof.
  intros Hg. destruct (alist_get_split k l v0 Hg) as (l1 & l2 & -> & Hset).
  rewrite Hset. unfold alist_keys. now rewrite !fmap_app.
Qed.

Lemma alist_get_elem k l v : alist_get k l = Some v -> (k, v) ∈ l.
Proof.
  intros Hg. destruct (alist_get_split k l v Hg) as (l1 & l2 & -> & _).
  apply elem_of_app. right. left.
Qed.

Lemma alist_get_keys k l : k ∈ alist_keys l -> is_Some (alist_get k l).
Proof.
  induction l as [|[k' v'] l IH]; simpl.
  - intros H0. inversion H0.
  - intros H0. destruct (decide (k = k')); [eauto|].
    apply IH. unfold alist_keys in *. simpl in H0.
    apply elem_of_cons in H0 as [?|?]; [contradiction | assumption].
Qed.
End AlistFacts.

(** * Sums of rationals *)

Section Sums.

Lemma Qsum_nil : Qsum [] = 0%Q.
Proof. reflexivity. Qed.

Lemma Qsum_cons (x : Q) (l : list Q) : Qsum (x :: l) = (x + Qsum l)%Q.
Proof. reflexivity. Qed.

Lemma Qsum_app (l1 l2 : list Q) : Qeq (Qsum (l1 ++ l2)) (Qsum l1 + Qsum l2).
Proof.
  induction l1 as [|x l1 IH]; simpl.
  - rewrite Qsum_nil. lra.
  - rewrite !Qsum_cons, IH. lra.
Qed.

Lemma foldl_Qplus (l : list Q) (a : Q) : Qeq (foldl Qplus a l) (a + Qsum l).
Proof.
  revert a. induction l as [|x l IH]; intros a; simpl.
  - rewrite Qsum_nil. lra.
  - rewrite IH, Qsum_cons. lra.
Qed.

Lemma Qsum_concat (ls : list (list Q)) :
  Qeq (Qsum (concat ls)) (Qsum (Qsum <$> ls)).
Proof.
  induction ls as [|l ls IH]; simpl; [reflexivity|].
  rewrite Qsum_app, IH. rewrite Qsum_cons. reflexivity.
Qed.

Lemma Qsum_perm (l1 l2 : list Q) : l1 ≡ₚ l2 -> Qeq (Qsum l1) (Qsum l2).
Proof.
  induction 1 as [|x l1 l2 _ IH|x y l|l1 l2 l3 _ IH1 _ IH2].
  - reflexivity.
  - rewrite !Qsum_cons, IH. reflexivity.
  - rewrite !Qsum_cons. lra.
  - now rewrite IH1.
Qed.

End Sums.

(** * The space calculator *)

Section SpaceUsageFacts.

Implicit Types (usage : SpaceUsage) (e : Entry) (loc : Location).

Lemma all_rows_app usage1 usage2 :
  all_rows (usage1 ++ usage2) = all_rows usage1 ++ all_rows usage2.
Proof. unfold all_rows. now rewrite fmap_app, concat_app. Qed.

Lemma all_rows_cons (shelf_id : string) (shelf : ShelfUsage) usage :
  all_rows ((shelf_id, shelf) :: usage)
  = alist_values (su_rows shelf) ++ all_rows usage.
Proof. reflexivity. Qed.

(** What one [+=] and [append] change: exactly one row of one shelf. *)
Lemma add_to_row_inv usage loc e usage' :
  add_to_row usage loc e = Ok usage' ->
  exists u1 u2 shelf r1 r2 row,
    usage = u1 ++ (loc.1, shelf) :: u2 /\
    su_rows shelf = r1 ++ (loc.2, row) :: r2 /\
    usage' = u1 ++ (loc.1,
                    {| su_rows := r1 ++ (loc.2, grown_row row e) :: r2;
                       total_width := total_width shelf;
                       available_width := available_width shelf;
                       utilization := utilization shelf |}) :: u2.
Proof.
  destruct loc as [shelf_id row_num]. unfold add_to_row. simpl.
  destruct (alist_get shelf_id usage) as [shelf|] eqn:Hs; [|discriminate].
  destruct (alist_get row_num (su_rows shelf)) as [row|] eqn:Hr; [|discriminate].
  intros [= <-].
  destruct (alist_get_split _ _ _ Hs) as (u1 & u2 & Hu & Hset).
  destruct (alist_get_split _ _ _ Hr) as (r1 & r2 & Hrows & Hrset).
  exists u1, u2, shelf, r1, r2, row. repeat split; try assumption.
  rewrite Hset, Hrset. reflexivity.
Qed.

Lemma add_to_row_shape usage loc e usage' :
  add_to_row usage loc e = Ok usage' -> shape usage' = shape usage.
Proof.
  intros H. apply add_to_row_inv in H
    as (u1 & u2 & shelf & r1 & r2 & row & -> & Hrows & ->).
  unfold shape. rewrite !fmap_app. simpl. rewrite Hrows.
  unfold alist_keys. now rewrite !fmap_app.
Qed.

Lemma add_to_row_rows usage loc e usage' :
  add_to_row usage loc e = Ok usage' ->
  exists rows1 rows2 row,
    all_rows usage = rows1 ++ row :: rows2 /\
    all_rows usage' = rows1 ++ grown_row row e :: rows2.
Proof.
  intros H. apply add_to_row_inv in H
    as (u1 & u2 & shelf & r1 & r2 & row & -> & Hrows & ->).
  exists (all_rows u1 ++ alist_values r1), (alist_values r2 ++ all_rows u2), row.
  rewrite !all_rows_app, !all_rows_cons. simpl. rewrite Hrows.
  unfold alist_values. rewrite !fmap_app. simpl.
  rewrite <- !app_assoc. simpl. split; reflexivity.
Qed.

Lemma add_to_row_width usage loc e usage' :
  add_to_row usage loc e = Ok usage' ->
  Qeq (Qsum (row_width <$> all_rows usage'))
      (Qsum (row_width <$> all_rows usage) + e_width e).
Proof.
  intros H. apply add_to_row_rows in H as (rows1 & rows2 & row & -> & ->).
  rewrite !fmap_app, !Qsum_app. simpl. rewrite !Qsum_cons. simpl. lra.
Qed.

Lemma add_to_row_entries usage loc e usage' :
  add_to_row usage loc e = Ok usage' ->
  all_entries usage' ≡ₚ all_entries usage ++ [e].
Proof.
  intros H. apply add_to_row_rows in H as (rows1 & rows2 & row & H1 & H2).
  unfold all_entries. rewrite H1, H2, !fmap_app, !concat_app. simpl.
  rewrite <- !app_assoc.
  apply Permutation_app_head. apply Permutation_app_head.
  apply Permutation_app_comm.
Qed.

Lemma bind_Ok {A B} (m : result A) (k : A -> result B) (b : B) :
  m ≫= k = Ok b -> exists a, m = Ok a /\ k a = Ok b.
Proof. destruct m as [a|e]; simpl; [eauto | discriminate]. Qed.

Lemma book_records_cons (item : Item) (items : list Item) :
  book_records (item :: items)
  = if decide (item !! "item_type" = Some (Some "book"))
    then item :: book_records items else book_records items.
Proof. reflexivity. Qed.

Lemma place_item_book (cat : Categorizer) usage (item : Item) :
  item !! "item_type" = Some (Some "book") ->
  place_item cat usage item
  = classify cat item ≫= fun loc => add_to_row usage loc (make_entry item).
Proof. intros H. unfold place_item, is_book. rewrite H. reflexivity. Qed.

Lemma place_item_other (cat : Categorizer) usage (item : Item) (kind : pystr) :
  item !! "item_type" = Some kind -> kind <> Some "book" ->
  place_item cat usage item = Ok usage.
Proof.
  intros H Hne. unfold place_item, is_book. rewrite H. simpl.
  now rewrite bool_decide_eq_false_2.
Qed.

Lemma place_item_no_kind (cat : Categorizer) usage (item : Item) :
  item !! "item_type" = None ->
  place_item cat usage item = Raise (KeyError (KStr "item_type")).
Proof. intros H. unfold place_item, is_book. now rewrite H. Qed.

(** The loop over the items: the shape is kept, every book adds its width
    to one row and its entry to that row's list. *)
Lemma place_items_inv (cat : Categorizer) (items : list Item) :
  forall usage usage',
    place_items cat usage items = Ok usage' ->
    shape usage' = shape usage /\
    Qeq (Qsum (row_width <$> all_rows usage'))
        (Qsum (row_width <$> all_rows usage)
         + Qsum (width_of <$> book_records items)) /\
    all_entries usage' ≡ₚ all_entries usage ++ (make_entry <$> book_records items).
Proof.
  induction items as [|item items IH]; intros usage usage' H.
  - injection H as <-. repeat split.
    + simpl. rewrite Qsum_nil. lra.
    + simpl. now rewrite app_nil_r.
  - simpl in H. apply bind_Ok in H as (usage1 & H1 & H2).
    destruct (IH _ _ H2) as (Hshape & Hwidth & Hent).
    rewrite book_records_cons.
    destruct (item !! "item_type") as [kind|] eqn:Hk;
      [|rewrite place_item_no_kind in H1 by assumption; discriminate].
    destruct (decide (Some kind = Some (Some "book"))) as [[= ->]|Hne].
    + rewrite place_item_book in H1 by assumption.
      apply bind_Ok in H1 as (loc & _ & Hadd).
      repeat split.
      * rewrite Hshape. eapply add_to_row_shape, Hadd.
      * rewrite Hwidth, (add_to_row_width _ _ _ _ Hadd).
        rewrite fmap_cons, Qsum_cons.
        change (e_width (make_entry item)) with (width_of item). lra.
      * rewrite Hent, (add_to_row_entries _ _ _ _ Hadd).
        rewrite fmap_cons, <- app_assoc. reflexivity.
    + rewrite (place_item_other _ _ _ kind) in H1 by congruence.
      injection H1 as <-. repeat split; assumption.
Qed.

(** ** The totals loop *)

Lemma finish_usage_inv usage usage' :
  finish_usage usage = Ok usage' ->
  usage' = (fun p => (p.1, with_totals p.2)) <$> usage /\
  Forall (fun p => available_width p.2 <> 0) usage.
Proof.
  revert usage'. induction usage as [|[shelf_id shelf] usage IH]; intros usage' H.
  - injection H as <-. split; constructor.
  - simpl in H. apply bind_Ok in H as (shelf' & Hs & H).
    apply bind_Ok in H as (rest' & Hr & H). injection H as <-.
    destruct (IH _ Hr) as [-> Hall].
    unfold finish_shelf in Hs.
    destruct (Z.eqb_spec (available_width shelf) 0) as [|Hne]; [discriminate|].
    injection Hs as <-. split; [reflexivity|]. constructor; assumption.
Qed.

Lemma finish_usage_Ok usage :
  Forall (fun p => available_width p.2 <> 0) usage ->
  finish_usage usage = Ok ((fun p => (p.1, with_totals p.2)) <$> usage).
Proof.
  induction 1 as [|[shelf_id shelf] usage Hne _ IH]; [reflexivity|].
  simpl in *. unfold finish_shelf.
  destruct (Z.eqb_spec (available_width shelf) 0) as [|_]; [contradiction|].
  simpl. rewrite IH. reflexivity.
Qed.

(** The only exception the totals loop can raise. *)
Lemma finish_usage_raise usage (e : exn) :
  finish_usage usage = Raise e ->
  e = ZeroDivisionError /\ Exists (fun p => available_width p.2 = 0) usage.
Proof.
  induction usage as [|[shelf_id shelf] usage IH]; [discriminate|].
  simpl. unfold finish_shelf.
  destruct (Z.eqb_spec (available_width shelf) 0) as [E0|_]; simpl.
  - intros [= <-]. split; [reflexivity|]. now left.
  - destruct (finish_usage usage) as [rest|e'] eqn:Hr; simpl; [discriminate|].
    intros [= <-]. destruct (IH eq_refl) as [-> Hex]. split; [reflexivity|].
    now right.
Qed.

Lemma all_rows_with_totals usage :
  all_rows ((fun p => (p.1, with_totals p.2)) <$> usage) = all_rows usage.
Proof.
  unfold all_rows. rewrite <- list_fmap_compose. reflexivity.
Qed.

Lemma shape_with_totals usage :
  shape ((fun p => (p.1, with_totals p.2)) <$> usage) = shape usage.
Proof.
  unfold shape. rewrite <- list_fmap_compose. reflexivity.
Qed.

Lemma sum_widths_Qsum (rows : list (Z * RowUsage)) :
  Qeq (sum_widths rows) (Qsum (row_width <$> alist_values rows)).
Proof. unfold sum_widths. rewrite foldl_Qplus. lra. Qed.

(** The shelf totals add up to the sum over all rows. *)
Lemma totals_sum usage :
  Qeq (Qsum (total_width <$>
             alist_values ((fun p => (p.1, with_totals p.2)) <$> usage)))
      (Qsum (row_width <$> all_rows usage)).
Proof.
  induction usage as [|[shelf_id shelf] usage IH].
  - reflexivity.
  - rewrite all_rows_cons, fmap_app, Qsum_app, <- IH.
    unfold alist_values. rewrite !fmap_cons, Qsum_cons. simpl.
    rewrite sum_widths_Qsum. reflexivity.
Qed.

Lemma calculate_space_usage_inv (items : list Item)
    (categorizer_func : option Categorizer) usage' :
  calculate_space_usage items categorizer_func = Ok usage' ->
  exists usage,
    place_items (default categorize_book categorizer_func)
      (init_usage SHELF_DIMENSIONS) items = Ok usage /\
    usage' = (fun p => (p.1, with_totals p.2)) <$> usage.
Proof.
  unfold calculate_space_usage. intros H.
  apply bind_Ok in H as (usage & Hp & Hf).
  exists usage. split; [assumption|]. now apply finish_usage_inv in Hf.
Qed.

Lemma init_usage_empty :
  Qeq (Qsum (row_width <$> all_rows (init_usage SHELF_DIMENSIONS))) 0 /\
  all_entries (init_usage SHELF_DIMENSIONS) = [] /\
  shape (init_usage SHELF_DIMENSIONS) = configured_shape.
Proof. repeat split. Qed.

End SpaceUsageFacts.

Section Totality.

Implicit Types (usage : SpaceUsage) (loc : Location).

Lemma elem_of_range1 (n r : Z) : r ∈ range1 n <-> 1 <= r <= n.
Proof.
  unfold range1. rewrite list_elem_of_fmap. split.
  - intros (i & -> & Hi). apply elem_of_seq in Hi. lia.
  - intros Hr. exists (Z.to_nat r). split; [lia|]. apply elem_of_seq. lia.
Qed.

Lemma shape_get usage (shelf_id : string) :
  (fun s => (available_width s, alist_keys (su_rows s)))
    <$> alist_get shelf_id usage
  = alist_get shelf_id ((fun t => (t.1.1, (t.1.2, t.2))) <$> shape usage).
Proof.
  induction usage as [|[k shelf] usage IH]; [reflexivity|].
  simpl. destruct (decide (shelf_id = k)); [reflexivity | exact IH].
Qed.

Lemma configured_shape_get (shelf_id : string) :
  alist_get shelf_id ((fun t => (t.1.1, (t.1.2, t.2))) <$> configured_shape)
  = (fun d => (sd_width d * sd_rows d, range1 (sd_rows d)))
      <$> alist_get shelf_id SHELF_DIMENSIONS.
Proof.
  unfold configured_shape, SHELF_DIMENSIONS. simpl.
  repeat (case_decide; [reflexivity|]). reflexivity.
Qed.

(** On a usage of the configured shape every configured location is
    there to receive a book. *)
Lemma add_to_row_total usage loc (e : Entry) :
  shape usage = configured_shape -> configured loc ->
  exists usage', add_to_row usage loc e = Ok usage'.
Proof.
  intros Hshape (d & Hd & Hrow). destruct loc as [shelf_id row_num].
  cbn [fst snd] in Hd, Hrow.
  pose proof (shape_get usage shelf_id) as Hg.
  rewrite Hshape, configured_shape_get, Hd in Hg. simpl in Hg.
  destruct (alist_get shelf_id usage) as [shelf|] eqn:Hs; [|discriminate].
  injection Hg as _ Hkeys.
  destruct (alist_get_keys row_num (su_rows shelf)) as [row Hr].
  { rewrite Hkeys. now apply elem_of_range1. }
  unfold add_to_row. rewrite Hs, Hr. eauto.
Qed.

Lemma place_items_total (cat : Categorizer) (items : list Item) :
  forall usage,
    shape usage = configured_shape ->
    Forall has_kind items ->
    Forall (fun item => exists loc, classify cat item = Ok loc /\ configured loc)
           (book_records items) ->
    exists usage', place_items cat usage items = Ok usage'.
Proof.
  induction items as [|item items IH]; intros usage Hshape Hkind Hcat.
  - exists usage. reflexivity.
  - apply Forall_cons in Hkind as [[kind Hk] Hkind].
    rewrite book_records_cons in Hcat. simpl.
    destruct (decide (item !! "item_type" = Some (Some "book"))) as [Hb|Hnb].
    + apply Forall_cons in Hcat as [(loc & Hloc & Hconf) Hcat].
      rewrite place_item_book, Hloc by assumption. simpl.
      destruct (add_to_row_total usage loc (make_entry item) Hshape Hconf)
        as [usage1 H1].
      rewrite H1. simpl. apply IH; try assumption.
      rewrite <- Hshape. eapply add_to_row_shape, H1.
    + rewrite (place_item_other _ _ _ kind) by congruence. simpl.
      now apply IH.
Qed.

Lemma shape_available usage :
  shape usage = configured_shape ->
  Forall (fun p => 0 < available_width p.2) usage.
Proof.
  intros H.
  assert (Forall (fun t : string * Z * list Z => 0 < t.1.2) (shape usage)) as Hall.
  { rewrite H. repeat constructor. }
  unfold shape in Hall. rewrite Forall_fmap in Hall.
  eapply Forall_impl; [exact Hall|]. intros p Hp. exact Hp.
Qed.

Lemma calculate_space_usage_total (items : list Item)
    (categorizer_func : option Categorizer) :
  Forall has_kind items ->
  Forall (fun item => exists loc,
              classify (default categorize_book categorizer_func) item = Ok loc
              /\ configured loc)
         (book_records items) ->
  exists usage0,
    place_items (default categorize_book categorizer_func)
      (init_usage SHELF_DIMENSIONS) items = Ok usage0 /\
    shape usage0 = configured_shape /\
    calculate_space_usage items categorizer_func
    = Ok ((fun p => (p.1, with_totals p.2)) <$> usage0).
Proof.
  intros Hkind Hcat.
  destruct (place_items_total (default categorize_book categorizer_func)
              items (init_usage SHELF_DIMENSIONS))
    as [usage0 H0]; try assumption; [reflexivity|].
  assert (shape usage0 = configured_shape) as Hshape.
  { apply place_items_inv in H0 as (-> & _). reflexivity. }
  exists usage0. repeat split; try assumption.
  unfold calculate_space_usage. rewrite H0. simpl.
  apply finish_usage_Ok.
  eapply Forall_impl; [apply shape_available, Hshape|].
  intros p Hp. simpl in Hp. lia.
Qed.

End Totality.

Section Coverage.

Implicit Types (usage : SpaceUsage) (item : Item).

Ltac rule_list_leaf :=
  eexists; split; [reflexivity | eexists; split; [reflexivity | simpl; lia]].

Ltac rule_list_cases :=
  repeat match goal with
         | |- context [if ?b then _ else _] => destruct b
         end; rule_list_leaf.

(** Whatever strings they are given, both rule lists end on a row of the
    configuration. *)
Lemma categorize_book_configured (title : string)
    (tags group description : pystr) (item : option Item) :
  exists loc,
    categorize_book (Some title) tags group description item = Ok loc /\
    configured loc.
Proof.
  unfold categorize_book, lower_method. cbn [mbind result_bind].
  rule_list_cases.
Qed.

Lemma balanced_categorize_book_configured (title : string)
    (tags group description : pystr) (item : option Item) :
  exists loc,
    balanced_categorize_book (Some title) tags group description item = Ok loc /\
    configured loc.
Proof.
  unfold balanced_categorize_book, lower_method. cbn [mbind result_bind].
  rule_list_cases.
Qed.

Lemma classify_shipped (categorizer_func : option Categorizer) item :
  shipped categorizer_func ->
  item !! "title" <> Some None ->
  exists loc,
    classify (default categorize_book categorizer_func) item = Ok loc /\
    configured loc.
Proof.
  intros Hs Ht. unfold classify.
  assert (exists title, dict_get item "title" (Some "") = Some title) as [t ->].
  { unfold dict_get. destruct (item !! "title") as [[t|]|]; eauto.
    contradiction. }
  destruct Hs as [->|[->| ->]]; simpl;
    first [apply categorize_book_configured
          | apply balanced_categorize_book_configured].
Qed.

(** A shipped classifier raises nothing but the [AttributeError] of a
    [None] title. *)
Lemma classify_shipped_raise (categorizer_func : option Categorizer) item
    (e : exn) :
  shipped categorizer_func ->
  classify (default categorize_book categorizer_func) item = Raise e ->
  e <> ZeroDivisionError.
Proof.
  intros Hs H.
  destruct (decide (item !! "title" = Some None)) as [Hn|Hn].
  - unfold classify, dict_get in H. rewrite Hn in H.
    destruct Hs as [->|[->| ->]]; simpl in H; injection H as <-; discriminate.
  - destruct (classify_shipped _ item Hs Hn) as (loc & Hloc & _). congruence.
Qed.

Lemma add_to_row_raise usage (loc : Location) (entry : Entry) (e : exn) :
  add_to_row usage loc entry = Raise e -> e <> ZeroDivisionError.
Proof.
  destruct loc as [shelf_id row_num]. unfold add_to_row.
  destruct (alist_get shelf_id usage) as [shelf|]; [|intros [= <-]; discriminate].
  destruct (alist_get row_num (su_rows shelf)); [discriminate|].
  intros [= <-]. discriminate.
Qed.

Lemma place_items_raise (categorizer_func : option Categorizer)
    (items : list Item) (e : exn) :
  shipped categorizer_func ->
  forall usage,
    place_items (default categorize_book categorizer_func) usage items = Raise e ->
    e <> ZeroDivisionError.
Proof.
  intros Hs. induction items as [|item items IH]; intros usage H; [discriminate|].
  simpl in H.
  destruct (place_item _ usage item) as [usage1|e1] eqn:H1; simpl in H.
  - eapply IH, H.
  - injection H as <-. unfold place_item, is_book in H1.
    destruct (item !! "item_type") as [kind|]; simpl in H1;
      [|injection H1 as <-; discriminate].
    destruct (bool_decide (kind = Some "book")); [|discriminate].
    destruct (classify _ item) as [loc|e2] eqn:Hc; simpl in H1.
    + eapply add_to_row_raise, H1.
    + injection H1 as <-. eapply classify_shipped_raise; eassumption.
Qed.

(** No list of records makes the utilization division fail. *)
Lemma no_division_by_zero (items : list Item)
    (categorizer_func : option Categorizer) :
  shipped categorizer_func ->
  calculate_space_usage items categorizer_func <> Raise ZeroDivisionError.
Proof.
  intros Hs H. unfold calculate_space_usage in H.
  destruct (place_items _ (init_usage SHELF_DIMENSIONS) items)
    as [usage0|e] eqn:Hp; simpl in H.
  - apply finish_usage_raise in H as [_ Hex].
    apply place_items_inv in Hp as (Hshape & _).
    apply shape_available in Hshape.
    apply Exists_exists in Hex as (p & Hin & H0).
    rewrite Forall_forall in Hshape. specialize (Hshape p Hin). lia.
  - injection H as ->. now apply place_items_raise in Hp.
Qed.

(** With a shipped classifier, records that carry a kind and whose books
    have a string for a title are all placed, and the totals follow. *)
Lemma calculate_space_usage_returns (items : list Item)
    (categorizer_func : option Categorizer) :
  shipped categorizer_func ->
  Forall input_record items ->
  exists usage0,
    shape usage0 = configured_shape /\
    calculate_space_usage items categorizer_func
    = Ok ((fun p => (p.1, with_totals p.2)) <$> usage0).
Proof.
  intros Hs Hin.
  destruct (calculate_space_usage_total items categorizer_func)
    as (usage0 & _ & Hshape & Hc).
  { eapply Forall_impl; [exact Hin|]. now intros item [Hk _]. }
  { unfold book_records. apply Forall_forall. intros item Hitem.
    apply list_elem_of_filter in Hitem as [Hbook Hitem].
    rewrite Forall_forall in Hin. destruct (Hin item Hitem) as [_ Ht].
    apply classify_shipped; auto. }
  exists usage0. split; assumption.
Qed.

End Coverage.

(** * The banners of a computed usage *)

Section ComputedBanners.

Lemma alist_get_with_totals (usage : SpaceUsage) (shelf_id : string) :
  alist_get shelf_id ((fun p => (p.1, with_totals p.2)) <$> usage)
  = with_totals <$> alist_get shelf_id usage.
Proof.
  induction usage as [|[k shelf] usage IH]; [reflexivity|].
  simpl. destruct (decide (shelf_id = k)); [reflexivity | exact IH].
Qed.

(** Whatever the classifier, a usage that is returned holds every
    configured shelf, with the configured capacity and the totals of its
    rows. *)
Lemma computed_shelf (items : list Item)
    (categorizer_func : option Categorizer) (space_usage : SpaceUsage)
    (shelf_id : string) (d : ShelfDimension) :
  calculate_space_usage items categorizer_func = Ok space_usage ->
  alist_get shelf_id SHELF_DIMENSIONS = Some d ->
  exists shelf0,
    alist_get shelf_id space_usage = Some (with_totals shelf0) /\
    available_width shelf0 = sd_width d * sd_rows d /\
    alist_keys (su_rows shelf0) = range1 (sd_rows d).
Proof.
  intros H Hd. apply calculate_space_usage_inv in H as (usage0 & Hp & ->).
  apply place_items_inv in Hp as (Hshape & _).
  pose proof (shape_get usage0 shelf_id) as Hg.
  rewrite Hshape, (proj2 (proj2 init_usage_empty)) in Hg.
  rewrite configured_shape_get, Hd in Hg. simpl in Hg.
  destruct (alist_get shelf_id usage0) as [shelf0|] eqn:Hs; [|discriminate].
  injection Hg as Ha Hk.
  exists shelf0. rewrite alist_get_with_totals, Hs. repeat split; assumption.
Qed.

Lemma configured_shelf_has_banner (shelf_id : string) (d : ShelfDimension) :
  alist_get shelf_id SHELF_DIMENSIONS = Some d ->
  shelf_id ∈ alist_keys ORGANIZATION.
Proof.
  intros Hd. apply alist_get_elem in Hd.
  change (alist_keys ORGANIZATION) with (alist_keys SHELF_DIMENSIONS).
  unfold alist_keys. apply list_elem_of_fmap. now exists (shelf_id, d).
Qed.

(** C6: the overview has one banner for every shelf of [ORGANIZATION], in
    order; a banner shows the utilization looked up for its shelf and is
    put in exactly one of three bands by it: over capacity exactly when it
    exceeds 90, near capacity exactly when it exceeds 75 without exceeding
    90, good capacity exactly when it is at most 75.  For a usage that
    [calculate_space_usage] returned, with any records and any classifier,
    the banner of every configured shelf shows the utilization computed for
    that shelf, the total width of its rows over its row count times its
    row width, times 100.  A shelf of 32 inches with 40 inches assigned has
    utilization 125 and its banner is in the over-capacity band. *)
Theorem utilization_banner_bands :
  (forall space_usage : SpaceUsage,
      (fun b : string * Q * Band => b.1.1) <$> banners space_usage
      = alist_keys ORGANIZATION /\
      forall shelf_id u band,
        (shelf_id, u, band) ∈ banners space_usage ->
        u = shown_utilization space_usage shelf_id /\
        (band = over_capacity <-> (90 < u)%Q) /\
        (band = near_capacity <-> (75 < u)%Q /\ (u <= 90)%Q) /\
        (band = good_capacity <-> (u <= 75)%Q)) /\
  (forall (items : list Item) categorizer_func (space_usage : SpaceUsage)
          shelf_id d,
      calculate_space_usage items categorizer_func = Ok space_usage ->
      alist_get shelf_id SHELF_DIMENSIONS = Some d ->
      exists shelf,
        alist_get shelf_id space_usage = Some shelf /\
        total_width shelf = sum_widths (su_rows shelf) /\
        utilization shelf
        = (total_width shelf / inject_Z (sd_width d * sd_rows d) * 100)%Q /\
        (shelf_id, utilization shelf, status_class (utilization shelf))
          ∈ banners space_usage) /\
  (forall (items : list Item) categorizer_func (space_usage : SpaceUsage)
          shelf_id d shelf,
      calculate_space_usage items categorizer_func = Ok space_usage ->
      alist_get shelf_id SHELF_DIMENSIONS = Some d ->
      alist_get shelf_id space_usage = Some shelf ->
      sd_width d * sd_rows d = 32 ->
      Qeq (total_width shelf) 40 ->
      Qeq (utilization shelf) 125 /\
      (shelf_id, utilization shelf, over_capacity) ∈ banners space_usage).
Proof.
  assert (forall (items : list Item) categorizer_func
                 (space_usage : SpaceUsage) shelf_id d,
      calculate_space_usage items categorizer_func = Ok space_usage ->
      alist_get shelf_id SHELF_DIMENSIONS = Some d ->
      exists shelf,
        alist_get shelf_id space_usage = Some shelf /\
        total_width shelf = sum_widths (su_rows shelf) /\
        utilization shelf
        = (total_width shelf / inject_Z (sd_width d * sd_rows d) * 100)%Q /\
        (shelf_id, utilization shelf, status_class (utilization shelf))
          ∈ banners space_usage) as Hcomputed.
  { intros items c space_usage shelf_id d H Hd.
    destruct (computed_shelf _ _ _ _ _ H Hd) as (shelf0 & Hget & Ha & _).
    exists (with_totals shelf0). split; [exact Hget|]. split; [reflexivity|].
    split; [simpl; now rewrite Ha|].
    pose proof (banners_intro space_usage shelf_id
                  (configured_shelf_has_banner _ _ Hd)) as Hb.
    unfold shown_utilization in Hb. rewrite Hget in Hb. exact Hb. }
  split; [|split].
  - intros space_usage. split; [apply banners_keys|].
    intros shelf_id u band H.
    apply banners_elem in H as [-> ->]. split; [reflexivity|].
    apply status_class_bands.
  - exact Hcomputed.
  - intros items c space_usage shelf_id d shelf H Hd Hget H32 H40.
    destruct (Hcomputed _ _ _ _ _ H Hd) as (shelf' & Hget' & _ & Hu & Hb).
    rewrite Hget in Hget'. injection Hget' as <-.
    assert (Qeq (utilization shelf) 125) as H125.
    { rewrite Hu, H32, H40. reflexivity. }
    split; [exact H125|].
    replace over_capacity with (status_class (utilization shelf)); [exact Hb|].
    apply status_class_bands. rewrite H125. reflexivity.
Qed.

Lemma utilization_banner_bands_witness :
  Qeq (utilization (with_totals loaded_hallway)) 125 /\
  ("hallway", utilization (with_totals loaded_hallway), over_capacity)
    ∈ banners (usage_or_empty
                 (calculate_space_usage hallway_load
                    (Some balanced_categorize_book))).
Proof.
  apply (proj2 (proj2 utilization_banner_bands)
           hallway_load (Some balanced_categorize_book)
           (usage_or_empty
              (calculate_space_usage hallway_load
                 (Some balanced_categorize_book)))
           "hallway" {| sd_rows := 2; sd_width := 16; sd_depth := 16 |}
           (with_totals loaded_hallway)).
  - vm_compute. reflexivity.
  - reflexivity.
  - vm_compute. reflexivity.
  - reflexivity.
  - vm_compute. reflexivity.
Defined.

End ComputedBanners.

Section Conservation.

(** C2: for every list of input records, whatever [calculate_space_usage]
    produces, its per-row widths add up, over all shelves and rows, to the
    sum of the estimated widths of the book records; so do the shelf
    totals; and the entries on the rows are exactly the book records, each
    once.  With a shipped classifier a usage is produced for every list of
    records that carry a kind and whose books have a string for a title. *)
Theorem row_widths_sum_to_book_widths (items : list Item)
    (categorizer_func : option Categorizer) :
  (forall usage : SpaceUsage,
      calculate_space_usage items categorizer_func = Ok usage ->
      Qeq (Qsum (row_width <$> all_rows usage))
          (Qsum ((fun item => estimate_book_width (Some (pages_of item)))
                   <$> book_records items)) /\
      Qeq (Qsum (total_width <$> alist_values usage))
          (Qsum ((fun item => estimate_book_width (Some (pages_of item)))
                   <$> book_records items)) /\
      all_entries usage ≡ₚ make_entry <$> book_records items) /\
  (shipped categorizer_func -> Forall input_record items ->
   exists usage, calculate_space_usage items categorizer_func = Ok usage).
Proof.
  split.
  - intros usage H. apply calculate_space_usage_inv in H as (usage0 & Hp & ->).
    apply place_items_inv in Hp as (_ & Hwidth & Hent).
    destruct init_usage_empty as (H0 & Hnil & _).
    rewrite H0 in Hwidth. rewrite Hnil in Hent. simpl in Hent.
    assert (Qeq (Qsum (row_width <$> all_rows usage0))
              (Qsum (width_of <$> book_records items))) as Hw
      by (rewrite Hwidth; lra).
    repeat split.
    + rewrite all_rows_with_totals. exact Hw.
    + rewrite totals_sum. exact Hw.
    + unfold all_entries. rewrite all_rows_with_totals. exact Hent.
  - intros Hs Hin.
    destruct (calculate_space_usage_returns items categorizer_func Hs Hin)
      as (usage0 & _ & Hc).
    eauto.
Qed.

Lemma row_widths_sum_to_book_widths_witness :
  Qeq (Qsum (row_width <$> all_rows sample_usage))
      (Qsum ((fun item => estimate_book_width (Some (pages_of item)))
               <$> book_records sample_items)) /\
  Qeq (Qsum (total_width <$> alist_values sample_usage))
      (Qsum ((fun item => estimate_book_width (Some (pages_of item)))
               <$> book_records sample_items)) /\
  all_entries sample_usage ≡ₚ make_entry <$> book_records sample_items.
Proof.
  apply (proj1 (row_widths_sum_to_book_widths sample_items None) sample_usage).
  vm_compute. reflexivity.
Defined.

End Conservation.

Section CoverageClaims.

(** C9, on the failing input: a book row cut short after its kind has the
    title [None]; the default of [item.get('title', '')] does not apply to
    a key that is present, the classifier calls [title.lower()] on [None]
    and raises, and [calculate_space_usage] returns no usage at all, with
    the default rule list and with the balanced one.  The same function
    guards tags, group and description: a row with [None] in all three is
    placed, and so is a row whose title is the empty string; both give a
    usage with every configured shelf and row. *)
Theorem short_row_raises :
  dict_get short_row "title" (Some "") = None /\
  calculate_space_usage [short_row] None
  = Raise (AttributeError "'NoneType' object has no attribute 'lower'") /\
  calculate_space_usage [short_row] (Some balanced_categorize_book)
  = Raise (AttributeError "'NoneType' object has no attribute 'lower'") /\
  (exists usage,
      calculate_space_usage [title_only_row] None = Ok usage /\
      shape usage = configured_shape) /\
  (exists usage,
      calculate_space_usage [empty_title_row] None = Ok usage /\
      shape usage = configured_shape).
Proof.
  split; [reflexivity|]. split; [reflexivity|]. split; [reflexivity|].
  split; (eexists; split; [vm_compute; reflexivity | reflexivity]).
Qed.

(** X15, what holds of the shelves: with a shipped classifier no list of
    records makes the utilization division fail, and for every list of
    records (the empty one included) that carry a kind and whose books
    have a string for a title, [calculate_space_usage] returns an entry for
    each of the six configured shelves, in order, with the rows 1 to its
    row count, its available width the positive product of row count and
    row width, and its utilization the total over the available width
    times 100. *)
Theorem space_usage_covers_every_shelf :
  (forall (items : list Item) categorizer_func,
      shipped categorizer_func ->
      calculate_space_usage items categorizer_func <> Raise ZeroDivisionError) /\
  (forall (items : list Item) categorizer_func,
      shipped categorizer_func ->
      Forall input_record items ->
      exists usage,
        calculate_space_usage items categorizer_func = Ok usage /\
        alist_keys usage = alist_keys SHELF_DIMENSIONS /\
        shape usage = configured_shape /\
        Forall (fun p =>
                  0 < available_width p.2 /\
                  total_width p.2 = sum_widths (su_rows p.2) /\
                  utilization p.2
                  = (total_width p.2 / inject_Z (available_width p.2) * 100)%Q)
               usage).
Proof.
  split; [intros; now apply no_division_by_zero|].
  intros items c Hs Hin.
  destruct (calculate_space_usage_returns items c Hs Hin)
    as (usage0 & Hshape & Hc).
  eexists. split; [exact Hc|].
  assert (shape ((fun p => (p.1, with_totals p.2)) <$> usage0) = configured_shape)
    as Hshape' by (now rewrite shape_with_totals).
  repeat split.
  - transitivity ((fun t : string * Z * list Z => t.1.1) <$> configured_shape);
      [|reflexivity].
    rewrite <- Hshape'. unfold shape, alist_keys.
    rewrite <- !list_fmap_compose. reflexivity.
  - exact Hshape'.
  - apply Forall_fmap. eapply Forall_impl; [apply shape_available, Hshape|].
    intros p Hp. repeat split. exact Hp.
Qed.

Lemma space_usage_covers_every_shelf_witness :
  exists usage,
    calculate_space_usage sample_items None = Ok usage /\
    alist_keys usage = alist_keys SHELF_DIMENSIONS /\
    shape usage = configured_shape /\
    Forall (fun p =>
              0 < available_width p.2 /\
              total_width p.2 = sum_widths (su_rows p.2) /\
              utilization p.2
              = (total_width p.2 / inject_Z (available_width p.2) * 100)%Q)
           usage.
Proof.
  apply (proj2 space_usage_covers_every_shelf sample_items None).
  - now left.
  - repeat constructor; try (eexists; reflexivity); discriminate.
Defined.

End CoverageClaims.

Section Frame.

Implicit Types (usage : SpaceUsage) (cat : Categorizer).

Lemma place_items_books cat (items : list Item) :
  Forall has_kind items ->
  forall usage,
    place_items cat usage items = place_items cat usage (book_records items).
Proof.
  induction 1 as [|item items [kind Hk] _ IH]; intros usage; [reflexivity|].
  rewrite book_records_cons.
  destruct (decide (item !! "item_type" = Some (Some "book"))) as [Hb|Hnb].
  - simpl. destruct (place_item cat usage item); simpl; [apply IH | reflexivity].
  - simpl. rewrite (place_item_other _ _ _ kind) by congruence. simpl. apply IH.
Qed.

Lemma books_of_kinds (items : list Item) :
  Forall has_kind items -> books_of items = Ok (book_records items).
Proof.
  induction 1 as [|item items [kind Hk] _ IH]; [reflexivity|].
  rewrite book_records_cons. simpl. unfold is_book. rewrite Hk, IH. simpl.
  destruct (decide (Some kind = Some (Some "book"))) as [[= ->]|Hne].
  - now rewrite bool_decide_eq_true_2.
  - rewrite bool_decide_eq_false_2 by congruence. reflexivity.
Qed.

(** A record without the item_type column stops both the calculator and
    the filter of [main]. *)
Lemma missing_kind_raises cat (items : list Item) :
  ~ Forall has_kind items ->
  yields (books_of items) = None /\
  forall usage, yields (place_items cat usage items) = None.
Proof.
  induction items as [|item items IH]; intros Hn.
  - destruct Hn. constructor.
  - destruct (item !! "item_type") as [kind|] eqn:Hk.
    + assert (~ Forall has_kind items) as Hn'.
      { intros Hall. apply Hn. constructor; [eexists; eassumption | assumption]. }
      destruct (IH Hn') as [Hb Hp]. split.
      * simpl. unfold is_book. rewrite Hk. simpl.
        destruct (books_of items); [discriminate | reflexivity].
      * intros usage. simpl.
        destruct (place_item cat usage item); simpl; [apply Hp | reflexivity].
    + split.
      * simpl. unfold is_book. now rewrite Hk.
      * intros usage. simpl. now rewrite place_item_no_kind.
Qed.

(** C10: records that are not books are never classified and leave the
    usage as it is; [calculate_space_usage] yields the same usage (rows,
    widths, item lists, totals, utilization) for a list as for the list
    that [main] keeps of it, the book records alone; and when every record
    carries a kind the two calls agree outright. *)
Theorem non_book_records_contribute_nothing (items : list Item)
    (categorizer_func : option Categorizer) :
  yields (calculate_space_usage items categorizer_func)
  = yields (books_of items ≫= fun books =>
              calculate_space_usage books categorizer_func) /\
  (Forall has_kind items ->
   books_of items = Ok (book_records items) /\
   calculate_space_usage items categorizer_func
   = calculate_space_usage (book_records items) categorizer_func) /\
  (forall cat usage (item : Item) (kind : pystr),
      item !! "item_type" = Some kind -> kind <> Some "book" ->
      place_item cat usage item = Ok usage).
Proof.
  assert (Forall has_kind items ->
          calculate_space_usage items categorizer_func
          = calculate_space_usage (book_records items) categorizer_func) as Heq.
  { intros Hall. unfold calculate_space_usage.
    now rewrite (place_items_books _ items Hall). }
  repeat split.
  - destruct (decide (Forall has_kind items)) as [Hall|Hn].
    + rewrite (books_of_kinds items Hall). simpl. now rewrite Heq.
    + destruct (missing_kind_raises
                  (default categorize_book categorizer_func) items Hn)
        as [Hb Hp].
      destruct (books_of items) as [books|e]; [discriminate|]. simpl.
      unfold calculate_space_usage.
      specialize (Hp (init_usage SHELF_DIMENSIONS)).
      destruct (place_items _ _ items); [discriminate | reflexivity].
  - now apply books_of_kinds.
  - now apply Heq.
  - intros. eapply place_item_other; eassumption.
Qed.

Lemma non_book_records_contribute_nothing_witness :
  books_of sample_items = Ok (book_records sample_items) /\
  calculate_space_usage sample_items (Some balanced_categorize_book)
  = calculate_space_usage (book_records sample_items)
      (Some balanced_categorize_book).
Proof.
  apply (proj1 (proj2 (non_book_records_contribute_nothing sample_items
                         (Some balanced_categorize_book)))).
  repeat constructor; eexists; reflexivity.
Defined.

End Frame.

Section Ingest.

Lemma read_rows_spec (reader : Reading) (items : list Item) :
  read_rows reader items
  = (items ++ filter (fun row => recognized row = true) (rows_read reader),
     raised reader).
Proof.
  revert items. induction reader as [|row rest IH|e]; intros items; simpl.
  - now rewrite app_nil_r.
  - rewrite IH, filter_cons.
    destruct (recognized row); simpl; [now rewrite <- app_assoc | reflexivity].
  - now rewrite app_nil_r.
Qed.

Lemma parse_csv_file_records (filepath : string) (reader : Reading) :
  (parse_csv_file filepath reader).1
  = filter (fun row => recognized row = true) (rows_read reader).
Proof.
  unfold parse_csv_file. rewrite read_rows_spec.
  destruct (raised reader); reflexivity.
Qed.

Lemma elem_of_concat {A} (x : A) (l : list A) (ls : list (list A)) :
  x ∈ l -> l ∈ ls -> x ∈ concat ls.
Proof.
  intros Hx. induction ls as [|l' ls IH]; intros Hl.
  - inversion Hl.
  - simpl. apply elem_of_app. apply elem_of_cons in Hl as [<-|Hl]; auto.
Qed.

Lemma ingest_spec (csv_files : list (string * Reading)) :
  forall all_items printed,
    ingest csv_files all_items printed
    = (all_items ++ concat ((fun f => (parse_csv_file f.1 f.2).1) <$> csv_files),
       printed ++ concat ((fun f => (parse_csv_file f.1 f.2).2) <$> csv_files)).
Proof.
  induction csv_files as [|[csv_file reader] rest IH]; intros all_items printed.
  - simpl. now rewrite !app_nil_r.
  - simpl. destruct (parse_csv_file csv_file reader) as [items lines] eqn:Hp.
    rewrite IH, <- !app_assoc. reflexivity.
Qed.

(** C7, as stated, fails: the rows read before the exception are kept. *)
Lemma rows_before_the_error_are_returned :
  raised broken_file.2 = Some (UnicodeDecodeError "invalid start byte") /\
  parse_csv_file broken_file.1 broken_file.2
  = ([genki_record],
     ["Error reading library_books.csv: invalid start byte"]) /\
  (parse_csv_file broken_file.1 broken_file.2).1 <> [].
Proof. repeat split. discriminate. Qed.

(** C7, amended: [parse_csv_file] never raises; when reading a file
    raises, it returns the recognized records read before the exception
    (none when the exception comes first, as for a file that cannot be
    opened) and prints one error line; and the records of the discovered
    files are concatenated in order whatever happens in any of them, so
    the records of every other file are in the result. *)
Theorem read_errors_are_local (csv_files : list (string * Reading)) :
  (forall filepath reader,
      (parse_csv_file filepath reader).1
      = filter (fun row => recognized row = true) (rows_read reader) /\
      (forall e, raised reader = Some e ->
                 (parse_csv_file filepath reader).2
                 = ["Error reading " +:+ filepath +:+ ": " +:+ exn_message e]) /\
      (forall e, reader = Fails e -> (parse_csv_file filepath reader).1 = [])) /\
  (ingest csv_files [] []).1
  = concat ((fun f => (parse_csv_file f.1 f.2).1) <$> csv_files) /\
  (forall f (item : Item),
      f ∈ csv_files -> item ∈ (parse_csv_file f.1 f.2).1 ->
      item ∈ (ingest csv_files [] []).1).
Proof.
  assert ((ingest csv_files [] []).1
          = concat ((fun f => (parse_csv_file f.1 f.2).1) <$> csv_files)) as Hc
    by (now rewrite ingest_spec).
  split; [|split; [exact Hc|]].
  - intros filepath reader. split; [apply parse_csv_file_records|]. split.
    + intros e He. unfold parse_csv_file. rewrite read_rows_spec, He. reflexivity.
    + intros e ->. reflexivity.
  - intros f item Hf Hitem. rewrite Hc.
    apply (elem_of_concat _ _ _ Hitem).
    apply list_elem_of_fmap. exists f. split; [reflexivity | assumption].
Qed.

Lemma read_errors_are_local_witness :
  music_record ∈ (ingest [broken_file; sound_file] [] []).1.
Proof.
  apply (proj2 (proj2 (read_errors_are_local [broken_file; sound_file]))
           sound_file music_record).
  - right. left.
  - left.
Defined.

End Ingest.

(** * Screenshot capture *)

Section Capture.

Import Screenshot.

Implicit Types (env : Browser) (wait_seconds : Z).




(** A readiness timeout is reported as [False] and ends the process with
    status 1. *)
Lemma timeout_exits_1 :
  capture_screenshot never_ready 0 = Ok false /\
  exit_code (Screenshot.main sample_argv never_ready) = 1.
Proof. split; reflexivity. Qed.

(** The exit status is 0 exactly when the capture returned [True]. *)
Lemma exit_code_of_capture (argv : list string) env wait_seconds :
  (3 <= length argv)%nat ->
  match argv !! 3%nat with
  | Some a => py_int a
  | None => Ok 20
  end = Ok wait_seconds ->
  (exit_code (Screenshot.main argv env) = 0 <->
   capture_screenshot env wait_seconds = Ok true) /\
  (exit_code (Screenshot.main argv env) = 1 <->
   capture_screenshot env wait_seconds <> Ok true).
Proof.
  intros Hlen Hwait. unfold Screenshot.main.
  destruct (Nat.ltb_spec (length argv) 3) as [|_]; [lia|].
  rewrite Hwait. simpl.
  destruct (capture_screenshot env wait_seconds) as [[]|e]; simpl;
    split; split; intros; congruence.
Qed.

(** C8, on the failing input: the page loads and renders, WebDriver
    reports with [False] that the image file could not be written, and
    the capture still returns [True]; the process ends with status 0. *)
Theorem write_failure_is_reported_as_success :
  save_screenshot write_fails = Ok false /\
  capture_screenshot write_fails 0 = Ok true /\
  exit_code (Screenshot.main sample_argv write_fails) = 0.
Proof. repeat split. Qed.

End Capture.

(** * The adaptive classifier *)

Section Adaptive.

Implicit Types (utilization_data : SpaceUsage) (loc : Location).

Lemma Qlt_bool_iff (x y : Q) : Qlt_bool x y = true <-> (x < y)%Q.
Proof.
  unfold Qlt_bool. rewrite negb_true_iff. split.
  - intros H. apply Qnot_le_lt. rewrite <- Qle_bool_iff. congruence.
  - intros H. destruct (Qle_bool y x) eqn:E; [|reflexivity].
    apply Qle_bool_iff in E. lra.
Qed.

Lemma Qlt_bool_false (x y : Q) : Qlt_bool x y = false <-> (y <= x)%Q.
Proof.
  unfold Qlt_bool. rewrite negb_false_iff. apply Qle_bool_iff.
Qed.

Lemma first_under_spec (limit : Q) utilization_data (shelves : list Location) :
  match first_under limit utilization_data shelves with
  | Some loc =>
      exists before after,
        shelves = before ++ loc :: after /\
        Forall (fun p => (limit <= shown_utilization utilization_data p.1)%Q)
               before /\
        (shown_utilization utilization_data loc.1 < limit)%Q
  | None =>
      Forall (fun p => (limit <= shown_utilization utilization_data p.1)%Q)
             shelves
  end.
Proof.
  induction shelves as [|[shelf_id row_num] rest IH]; simpl; [constructor|].
  destruct (Qlt_bool (shown_utilization utilization_data shelf_id) limit) eqn:E.
  - apply Qlt_bool_iff in E. exists [], rest. repeat split; [constructor | exact E].
  - apply Qlt_bool_false in E.
    destruct (first_under limit utilization_data rest) as [loc|].
    + destruct IH as (before & after & -> & Hb & Hl).
      exists ((shelf_id, row_num) :: before), after.
      repeat split; [constructor; assumption | exact Hl].
    + constructor; assumption.
Qed.

(** The pass keeps a shelf that no later shelf undercuts. *)
Lemma least_utilized_running utilization_data (shelf_ids : list string) :
  forall (best : string),
    let result :=
      least_utilized utilization_data shelf_ids
        (Some (shown_utilization utilization_data best)) (best, 1) in
    result.2 = 1 /\
    (result.1 = best \/ result.1 ∈ shelf_ids) /\
    (shown_utilization utilization_data result.1
     <= shown_utilization utilization_data best)%Q /\
    Forall (fun s => (shown_utilization utilization_data result.1
                      <= shown_utilization utilization_data s)%Q) shelf_ids.
Proof.
  induction shelf_ids as [|shelf_id rest IH]; intros best; simpl.
  - repeat split; [now left | lra | constructor].
  - destruct (Qlt_bool (shown_utilization utilization_data shelf_id)
                (shown_utilization utilization_data best)) eqn:E.
    + apply Qlt_bool_iff in E.
      destruct (IH shelf_id) as (H1 & H2 & H3 & H4). repeat split.
      * exact H1.
      * right. destruct H2 as [->|H2]; [left | now right].
      * lra.
      * constructor; assumption.
    + apply Qlt_bool_false in E.
      destruct (IH best) as (H1 & H2 & H3 & H4). repeat split.
      * exact H1.
      * destruct H2 as [H2|H2]; [now left | right; now right].
      * exact H3.
      * constructor; [lra | assumption].
Qed.

Lemma least_utilized_spec utilization_data (shelf_ids : list string) loc :
  shelf_ids <> [] ->
  let result := least_utilized utilization_data shelf_ids None loc in
  result.2 = 1 /\ result.1 ∈ shelf_ids /\
  Forall (fun s => (shown_utilization utilization_data result.1
                    <= shown_utilization utilization_data s)%Q) shelf_ids.
Proof.
  destruct shelf_ids as [|shelf_id rest]; [congruence|]. intros _. simpl.
  destruct (least_utilized_running utilization_data rest shelf_id)
    as (H1 & H2 & H3 & H4).
  repeat split.
  - exact H1.
  - destruct H2 as [->|H2]; [left | now right].
  - constructor; assumption.
Qed.

(** The three ways [find_best_shelf] answers. *)
Lemma find_best_shelf_cases utilization_data
    (preferred_shelves fallback_shelves : list Location) :
  let u := shown_utilization utilization_data in
  let loc := find_best_shelf utilization_data preferred_shelves fallback_shelves in
  (exists before after,
      preferred_shelves = before ++ loc :: after /\
      Forall (fun p => (85 <= u p.1)%Q) before /\ (u loc.1 < 85)%Q) \/
  (Forall (fun p => (85 <= u p.1)%Q) preferred_shelves /\
   exists before after,
     fallback_shelves = before ++ loc :: after /\
     Forall (fun p => (95 <= u p.1)%Q) before /\ (u loc.1 < 95)%Q) \/
  (Forall (fun p => (85 <= u p.1)%Q) preferred_shelves /\
   Forall (fun p => (95 <= u p.1)%Q) fallback_shelves /\
   loc.2 = 1 /\ loc.1 ∈ alist_keys SHELF_DIMENSIONS /\
   Forall (fun s => (u loc.1 <= u s)%Q) (alist_keys SHELF_DIMENSIONS)).
Proof.
  intros u loc. subst u loc. unfold find_best_shelf.
  pose proof (first_under_spec 85 utilization_data preferred_shelves) as Hp.
  destruct (first_under 85 utilization_data preferred_shelves) as [loc|];
    [left; exact Hp|].
  right.
  pose proof (first_under_spec 95 utilization_data fallback_shelves) as Hf.
  assert ((if bool_decide (fallback_shelves = []) then None
           else first_under 95 utilization_data fallback_shelves)
          = first_under 95 utilization_data fallback_shelves) as ->.
  { case_bool_decide as E; [now rewrite E | reflexivity]. }
  destruct (first_under 95 utilization_data fallback_shelves) as [loc|].
  - left. split; assumption.
  - right. split; [assumption|]. split; [assumption|].
    apply least_utilized_spec. discriminate.
Qed.

(** X1: [find_best_shelf] answers with the first preferred candidate whose
    shelf is used below 85 percent; failing that, with the first fallback
    candidate below 95 percent; failing that, with row 1 of a configured
    shelf that no configured shelf undercuts in utilization. *)
Theorem find_best_shelf_choice (utilization_data : SpaceUsage)
    (preferred_shelves fallback_shelves : list Location) :
  let u := shown_utilization utilization_data in
  let loc := find_best_shelf utilization_data preferred_shelves fallback_shelves in
  (exists before after,
      preferred_shelves = before ++ loc :: after /\
      Forall (fun p => (85 <= u p.1)%Q) before /\ (u loc.1 < 85)%Q) \/
  (Forall (fun p => (85 <= u p.1)%Q) preferred_shelves /\
   exists before after,
     fallback_shelves = before ++ loc :: after /\
     Forall (fun p => (95 <= u p.1)%Q) before /\ (u loc.1 < 95)%Q) \/
  (Forall (fun p => (85 <= u p.1)%Q) preferred_shelves /\
   Forall (fun p => (95 <= u p.1)%Q) fallback_shelves /\
   loc.2 = 1 /\ loc.1 ∈ alist_keys SHELF_DIMENSIONS /\
   Forall (fun s => (u loc.1 <= u s)%Q) (alist_keys SHELF_DIMENSIONS)).
Proof. apply find_best_shelf_cases. Qed.

Lemma first_row_configured (shelf_id : string) :
  shelf_id ∈ alist_keys SHELF_DIMENSIONS -> configured (shelf_id, 1).
Proof.
  intros H. unfold alist_keys, SHELF_DIMENSIONS in H. simpl in H.
  repeat (apply elem_of_cons in H as [->|H];
          [eexists; split; [reflexivity | simpl; lia]|]).
  inversion H.
Qed.

Lemma find_best_shelf_configured utilization_data
    (preferred_shelves fallback_shelves : list Location) :
  Forall configured preferred_shelves ->
  Forall configured fallback_shelves ->
  configured (find_best_shelf utilization_data preferred_shelves fallback_shelves).
Proof.
  intros Hp Hf.
  destruct (find_best_shelf_cases utilization_data preferred_shelves
              fallback_shelves)
    as [(b & a & E & _)|[(_ & b & a & E & _)|(_ & _ & H1 & H2 & _)]].
  - rewrite E in Hp at 1. apply Forall_app in Hp as [_ Hp].
    now apply Forall_cons in Hp as [Hp _].
  - rewrite E in Hf at 1. apply Forall_app in Hf as [_ Hf].
    now apply Forall_cons in Hf as [Hf _].
  - destruct (find_best_shelf _ _ _) as [shelf_id row_num]. simpl in *.
    subst row_num. now apply first_row_configured.
Qed.

Ltac candidate_configured :=
  repeat constructor; (eexists; split; [reflexivity | simpl; lia]).

Lemma adaptive_categorizer_configured utilization_data (iteration : Z)
    (title : string) (tags group description : pystr) (item : option Item) :
  exists loc,
    create_adaptive_categorizer utilization_data iteration
      (Some title) tags group description item = Ok loc /\
    configured loc.
Proof.
  unfold create_adaptive_categorizer, lower_method. cbn [mbind result_bind].
  repeat match goal with
         | |- context [if ?b then _ else _] => destruct b
         end;
    (eexists; split; [reflexivity|];
     apply find_best_shelf_configured; candidate_configured).
Qed.

(** X2: with the adaptive classifier built from any utilization data and
    iteration number, [calculate_space_usage] returns a usage of the
    configured shape for every list of records that carry a kind and whose
    books have a string for a title: the classifier never names a shelf or
    row that does not exist. *)
Theorem adaptive_categorizer_places_every_book (utilization_data : SpaceUsage)
    (iteration : Z) (items : list Item) :
  Forall input_record items ->
  exists usage,
    calculate_space_usage items
      (Some (create_adaptive_categorizer utilization_data iteration))
    = Ok usage /\
    shape usage = configured_shape.
Proof.
  intros Hin.
  destruct (calculate_space_usage_total items
              (Some (create_adaptive_categorizer utilization_data iteration)))
    as (usage0 & _ & Hshape & Hc).
  { eapply Forall_impl; [exact Hin|]. now intros item [Hk _]. }
  { unfold book_records. apply Forall_forall. intros item Hitem.
    apply list_elem_of_filter in Hitem as [Hbook Hitem].
    rewrite Forall_forall in Hin. destruct (Hin item Hitem) as [_ Ht].
    unfold classify. simpl.
    assert (exists title, dict_get item "title" (Some "") = Some title) as [t ->].
    { unfold dict_get. destruct (item !! "title") as [[t|]|]; eauto.
      now destruct (Ht Hbook). }
    apply adaptive_categorizer_configured. }
  eexists. split; [exact Hc|]. now rewrite shape_with_totals.
Qed.

Lemma adaptive_categorizer_places_every_book_witness :
  exists usage,
    calculate_space_usage sample_items
      (Some (create_adaptive_categorizer sample_usage 2))
    = Ok usage /\
    shape usage = configured_shape.
Proof.
  apply (adaptive_categorizer_places_every_book sample_usage 2 sample_items).
  repeat constructor; try (eexists; reflexivity); discriminate.
Defined.

End Adaptive.

(** * Row by row *)

Section Rows.

Implicit Types (usage : SpaceUsage) (loc : Location) (cat : Categorizer).

Lemma add_to_row_lookup usage loc (e : Entry) usage1
    (shelf_id : string) (row_num : Z) (shelf1 : ShelfUsage) (row1 : RowUsage) :
  add_to_row usage loc e = Ok usage1 ->
  alist_get shelf_id usage1 = Some shelf1 ->
  alist_get row_num (su_rows shelf1) = Some row1 ->
  exists shelf row,
    alist_get shelf_id usage = Some shelf /\
    alist_get row_num (su_rows shelf) = Some row /\
    row1 = if decide (loc = (shelf_id, row_num)) then grown_row row e else row.
Proof.
  destruct loc as [sid rn]. unfold add_to_row.
  destruct (alist_get sid usage) as [shelf|] eqn:Hs; [|discriminate].
  destruct (alist_get rn (su_rows shelf)) as [row|] eqn:Hr; [|discriminate].
  intros [= <-] H1 H2.
  destruct (decide (sid = shelf_id)) as [->|Hne].
  - rewrite alist_get_set_eq in H1. injection H1 as <-. simpl in H2.
    destruct (decide (rn = row_num)) as [->|Hnr].
    + rewrite alist_get_set_eq in H2. injection H2 as <-.
      exists shelf, row. rewrite decide_True by reflexivity. auto.
    + rewrite alist_get_set_ne in H2 by assumption.
      exists shelf, row1. rewrite decide_False by congruence. auto.
  - rewrite alist_get_set_ne in H1 by assumption.
    exists shelf1, row1. rewrite decide_False by congruence. auto.
Qed.

Lemma placed_on_cons cat loc (item : Item) (items : list Item) :
  placed_on cat loc (item :: items)
  = if decide (item !! "item_type" = Some (Some "book"))
    then if decide (classify cat item = Ok loc)
         then item :: placed_on cat loc items
         else placed_on cat loc items
    else placed_on cat loc items.
Proof.
  unfold placed_on. rewrite book_records_cons.
  destruct (decide (item !! "item_type" = Some (Some "book"))); [|reflexivity].
  now rewrite filter_cons.
Qed.

(** The loop adds to each row the books classified to it, in input order. *)
Lemma place_items_rows cat (items : list Item) :
  forall usage usage' (shelf_id : string) (row_num : Z) shelf' row',
    place_items cat usage items = Ok usage' ->
    alist_get shelf_id usage' = Some shelf' ->
    alist_get row_num (su_rows shelf') = Some row' ->
    exists shelf row,
      alist_get shelf_id usage = Some shelf /\
      alist_get row_num (su_rows shelf) = Some row /\
      row_items row'
      = row_items row ++ (make_entry <$> placed_on cat (shelf_id, row_num) items) /\
      Qeq (row_width row')
          (row_width row
           + Qsum (width_of <$> placed_on cat (shelf_id, row_num) items)).
Proof.
  induction items as [|item items IH];
    intros usage usage' shelf_id row_num shelf' row' H Hs Hr.
  - injection H as <-. exists shelf', row'. repeat split; try assumption.
    + simpl. now rewrite app_nil_r.
    + simpl. rewrite Qsum_nil. lra.
  - simpl in H. apply bind_Ok in H as (usage1 & H1 & H2).
    destruct (IH _ _ _ _ _ _ H2 Hs Hr) as (shelf1 & row1 & Hs1 & Hr1 & Hit & Hw).
    rewrite placed_on_cons.
    destruct (item !! "item_type") as [kind|] eqn:Hk;
      [|rewrite place_item_no_kind in H1 by assumption; discriminate].
    destruct (decide (Some kind = Some (Some "book"))) as [[= ->]|Hne].
    + rewrite place_item_book in H1 by assumption.
      apply bind_Ok in H1 as (loc & Hloc & Hadd).
      destruct (add_to_row_lookup _ _ _ _ _ _ _ _ Hadd Hs1 Hr1)
        as (shelf & row & Hs0 & Hr0 & Hrow).
      exists shelf, row. split; [assumption|]. split; [assumption|].
      rewrite Hloc.
      destruct (decide (loc = (shelf_id, row_num))) as [->|Hnl].
      * rewrite decide_True by reflexivity. subst row1. split.
        -- rewrite Hit. simpl. now rewrite <- app_assoc.
        -- rewrite Hw, fmap_cons, Qsum_cons.
           unfold grown_row, make_entry, width_of. cbn [row_width e_width]. lra.
      * rewrite decide_False by congruence. subst row1. split; assumption.
    + rewrite (place_item_other _ _ _ kind) in H1 by congruence.
      injection H1 as <-. exists shelf1, row1. repeat split; assumption.
Qed.

(** X3: in the usage that [calculate_space_usage] returns, each row holds
    exactly the book records that the classifier sent to that shelf and
    row, in input order, and the row's width is the sum of their estimated
    widths. *)
Theorem each_row_holds_its_books (items : list Item)
    (categorizer_func : option Categorizer) (usage : SpaceUsage)
    (shelf_id : string) (row_num : Z) (shelf : ShelfUsage) (row : RowUsage) :
  calculate_space_usage items categorizer_func = Ok usage ->
  alist_get shelf_id usage = Some shelf ->
  alist_get row_num (su_rows shelf) = Some row ->
  row_items row
  = make_entry <$> placed_on (default categorize_book categorizer_func)
                     (shelf_id, row_num) items /\
  Qeq (row_width row)
      (Qsum ((fun item => estimate_book_width (Some (pages_of item)))
               <$> placed_on (default categorize_book categorizer_func)
                     (shelf_id, row_num) items)).
Proof.
  intros H Hs Hr.
  apply calculate_space_usage_inv in H as (usage0 & Hp & ->).
  assert (exists shelf0, alist_get shelf_id usage0 = Some shelf0 /\
                         su_rows shelf0 = su_rows shelf) as (shelf0 & Hs0 & Hrows).
  { clear Hp Hr. induction usage0 as [|[k s0] usage0 IH]; [discriminate|].
    simpl in Hs. destruct (decide (shelf_id = k)) as [->|Hne].
    - injection Hs as <-. exists s0. simpl. now rewrite decide_True.
    - destruct (IH Hs) as (s & Hs' & Hrows). exists s. simpl.
      now rewrite decide_False. }
  rewrite <- Hrows in Hr.
  destruct (place_items_rows _ _ _ _ _ _ _ _ Hp Hs0 Hr)
    as (shelfi & rowi & Hsi & Hri & Hit & Hw).
  assert (row_items rowi = [] /\ row_width rowi = 0%Q) as [Hnil Hzero].
  { clear - Hsi Hri. unfold init_usage, SHELF_DIMENSIONS in Hsi. simpl in Hsi.
    repeat (case_decide;
            [injection Hsi as <-; simpl in Hri;
             repeat (case_decide; [injection Hri as <-; split; reflexivity|]);
             discriminate|]).
    discriminate. }
  rewrite Hnil in Hit. rewrite Hzero in Hw. split; [exact Hit|].
  rewrite Hw. unfold width_of. lra.
Qed.

Lemma each_row_holds_its_books_witness :
  exists shelf row,
    alist_get "hallway" sample_usage = Some shelf /\
    alist_get 2 (su_rows shelf) = Some row /\
    row_items row
    = make_entry <$> placed_on categorize_book ("hallway", 2) sample_items.
Proof.
  eexists. eexists. split; [reflexivity|]. split; [reflexivity|].
  refine (proj1 (each_row_holds_its_books sample_items None sample_usage
                   "hallway" 2 _ _ _ _ _)); vm_compute; reflexivity.
Defined.

End Rows.

(** * Keyword matching *)

Section Keywords.

Lemma prefix_nil (s : string) : String.prefix "" s = true.
Proof. now destruct s. Qed.

Lemma prefix_app (w a b : string) :
  String.prefix w a = true -> String.prefix w (a +:+ b) = true.
Proof.
  revert a. induction w as [|c w IH]; intros a H; [apply prefix_nil|].
  destruct a as [|c' a]; simpl in H; [discriminate|]. simpl.
  destruct (Ascii.ascii_dec c c'); [now apply IH | discriminate].
Qed.

Lemma contains_unfold (w s : string) :
  contains w s
  = if String.prefix w s then true
    else match s with
         | EmptyString => false
         | String _ t => contains w t
         end.
Proof. now destruct s. Qed.

Lemma contains_app_l (w a b : string) :
  contains w a = true -> contains w (a +:+ b) = true.
Proof.
  induction a as [|c a IH]; intros H; rewrite contains_unfold in H.
  - destruct w; [|discriminate]. simpl. rewrite contains_unfold.
    now rewrite prefix_nil.
  - rewrite contains_unfold.
    destruct (String.prefix w (String c a)) eqn:E.
    + now rewrite (prefix_app _ _ b E).
    + change (String c a +:+ b) with (String c (a +:+ b)). destruct (String.prefix w (String c (a +:+ b)));
        [reflexivity | now apply IH].
Qed.

Lemma contains_app_r (w a b : string) :
  contains w b = true -> contains w (a +:+ b) = true.
Proof.
  intros H. induction a as [|c a IH]; [exact H|].
  rewrite contains_unfold. change (String c a +:+ b) with (String c (a +:+ b)).
  destruct (String.prefix w (String c (a +:+ b))); [reflexivity | exact IH].
Qed.

(** A word found in one field is found in the combined text. *)
Lemma contains_combine (w title tags group description : string) :
  contains w title = true \/ contains w tags = true \/
  contains w group = true \/ contains w description = true ->
  contains w (combine title tags group description) = true.
Proof.
  unfold combine. intros [H|[H|[H|H]]].
  - now apply contains_app_l.
  - apply contains_app_r, contains_app_r. now apply contains_app_l.
  - do 4 apply contains_app_r. now apply contains_app_l.
  - now do 6 apply contains_app_r.
Qed.

Lemma any_in_combine (words : list string)
    (title tags group description : string) :
  any_in words title = true \/ any_in words tags = true \/
  any_in words group = true \/ any_in words description = true ->
  any_in words (combine title tags group description) = true.
Proof.
  unfold any_in. rewrite !existsb_exists. intros H.
  assert (exists w, In w words /\
            (contains w title = true \/ contains w tags = true \/
             contains w group = true \/ contains w description = true))
    as (w & Hw & Hc) by (destruct H as [(w & ? & ?)|[(w & ? & ?)|[(w & ? & ?)|(w & ? & ?)]]]; eauto 10).
  exists w. split; [assumption | now apply contains_combine].
Qed.

(** X4: the first rule has priority over every other and looks at all four
    fields: a book whose title, tags, group or description contains, in any
    letter case, one of the core language-learning keywords goes to
    office_a row 1, with the default rule list and with the balanced one,
    whatever else the fields contain. *)
Theorem first_rule_wins_in_any_field (title : string)
    (tags group description : pystr) (item : option Item) :
  (any_in ["genki"; "tobira"; "integrated chinese"; "kanji for international"]
     (lower title) = true \/
   any_in ["genki"; "tobira"; "integrated chinese"; "kanji for international"]
     (lower_if tags) = true \/
   any_in ["genki"; "tobira"; "integrated chinese"; "kanji for international"]
     (lower_if group) = true \/
   any_in ["genki"; "tobira"; "integrated chinese"; "kanji for international"]
     (lower_if description) = true ->
   categorize_book (Some title) tags group description item
   = Ok ("office_a", 1)) /\
  (any_in ["genki i"; "genki ii"; "tobira"; "clean code"] (lower title) = true \/
   any_in ["genki i"; "genki ii"; "tobira"; "clean code"] (lower_if tags) = true \/
   any_in ["genki i"; "genki ii"; "tobira"; "clean code"] (lower_if group) = true \/
   any_in ["genki i"; "genki ii"; "tobira"; "clean code"]
     (lower_if description) = true ->
   balanced_categorize_book (Some title) tags group description item
   = Ok ("office_a", 1)).
Proof.
  split; intros H; apply any_in_combine in H.
  - unfold categorize_book, lower_method. cbn [mbind result_bind].
    now rewrite H.
  - unfold balanced_categorize_book, lower_method. cbn [mbind result_bind].
    now rewrite H.
Qed.

Lemma first_rule_wins_in_any_field_witness :
  categorize_book (Some "Cooking for the History Class") (Some "war, GENKI")
    None (Some "a textbook") None
  = Ok ("office_a", 1).
Proof.
  apply (proj1 (first_rule_wins_in_any_field "Cooking for the History Class"
                  (Some "war, GENKI") None (Some "a textbook") None)).
  right. left. reflexivity.
Defined.

End Keywords.

(** * From the files to the summary *)

Section Pipeline.

Implicit Types (csv_files : list (string * Reading)) (item : Item).

Lemma recognized_kind item :
  recognized item = true ->
  exists kind, item !! "item_type" = Some (Some kind) /\
               (kind = "book" \/ kind = "videogame" \/ kind = "music").
Proof.
  unfold recognized, dict_get.
  destruct (item !! "item_type") as [[kind|]|]; try discriminate.
  intros H. apply bool_decide_eq_true in H. exists kind. split; [reflexivity|].
  repeat (apply elem_of_cons in H as [H|H]; [auto|]). inversion H.
Qed.

Lemma ingest_recognized csv_files :
  Forall (fun item => recognized item = true) (ingest csv_files [] []).1.
Proof.
  rewrite ingest_spec. simpl.
  induction csv_files as [|[csv_file reader] rest IH]; simpl; [constructor|].
  apply Forall_app. split; [|exact IH].
  rewrite parse_csv_file_records. apply Forall_forall. intros item Hitem.
  now apply list_elem_of_filter in Hitem as [Hrec _].
Qed.

Lemma items_of_kind_length (all_items : list Item) :
  Forall (fun item => recognized item = true) all_items ->
  exists books videogames music,
    items_of_kind "book" all_items = Ok books /\
    items_of_kind "videogame" all_items = Ok videogames /\
    items_of_kind "music" all_items = Ok music /\
    (length books + length videogames + length music = length all_items)%nat.
Proof.
  induction 1 as [|item all_items Hrec _ IH].
  - exists [], [], []. repeat split.
  - destruct IH as (b & v & m & Hb & Hv & Hm & Hlen).
    destruct (recognized_kind item Hrec) as (kind & Hk & Hkind).
    simpl. rewrite Hk, Hb, Hv, Hm. simpl.
    destruct Hkind as [->|[->| ->]]; simpl;
      repeat (rewrite bool_decide_eq_true_2 by reflexivity);
      repeat (rewrite bool_decide_eq_false_2 by discriminate);
      do 3 eexists; (repeat split; [reflexivity..|simpl; lia]).
Qed.

Lemma collected_records_are_counted_books csv_files :
  Forall (fun item => recognized item = true) (ingest csv_files [] []).1 /\
  books_of (ingest csv_files [] []).1
  = Ok (book_records (ingest csv_files [] []).1).
Proof.
  pose proof (ingest_recognized csv_files) as Hrec. split; [exact Hrec|].
  apply books_of_kinds. eapply Forall_impl; [exact Hrec|]. intros item Hr.
  destruct (recognized_kind item Hr) as (kind & Hk & _). now exists (Some kind).
Qed.

(** X6: whatever the discovered files hold and however their reading ends,
    every record that [main] collects has a kind among book, videogame and
    music; so the book filter of [main] and the counts of the collection
    summary never raise [KeyError], and the three counts add up to the
    number of collected records. *)
Theorem collected_records_are_counted csv_files :
  let all_items := (ingest csv_files [] []).1 in
  Forall (fun item => recognized item = true) all_items /\
  books_of all_items = Ok (book_records all_items) /\
  exists books videogames music,
    collection_summary all_items = Ok (books, videogames, music) /\
    books = length (book_records all_items) /\
    (books + videogames + music = length all_items)%nat.
Proof.
  intros all_items. pose proof (ingest_recognized csv_files) as Hrec.
  fold all_items in Hrec.
  assert (Forall has_kind all_items) as Hkind.
  { eapply Forall_impl; [exact Hrec|]. intros item Hr.
    destruct (recognized_kind item Hr) as (kind & Hk & _). now exists (Some kind). }
  split; [exact Hrec|]. split; [now apply books_of_kinds|].
  destruct (items_of_kind_length all_items Hrec)
    as (b & v & m & Hb & Hv & Hm & Hlen).
  exists (length b), (length v), (length m).
  unfold collection_summary. rewrite Hb, Hv, Hm. simpl.
  split; [reflexivity|]. split; [|exact Hlen].
  clear - Hb Hkind. revert b Hb.
  induction Hkind as [|item items [kind Hk] _ IH]; intros b Hb.
  - now injection Hb as <-.
  - simpl in Hb. rewrite Hk in Hb. apply bind_Ok in Hb as (kept & Hkept & Hb).
    injection Hb as <-. rewrite book_records_cons.
    destruct (decide (item !! "item_type" = Some (Some "book"))) as [Hbook|Hne].
    + rewrite Hk in Hbook. injection Hbook as ->.
      rewrite bool_decide_eq_true_2 by reflexivity. simpl. f_equal. now apply IH.
    + rewrite bool_decide_eq_false_2 by congruence. now apply IH.
Qed.

Lemma place_items_untitled (categorizer_func : option Categorizer)
    (items : list Item) :
  shipped categorizer_func ->
  forall usage : SpaceUsage,
    shape usage = configured_shape ->
    Forall has_kind items ->
    Exists untitled_book items ->
    place_items (default categorize_book categorizer_func) usage items
    = Raise (AttributeError "'NoneType' object has no attribute 'lower'").
Proof.
  intros Hs. induction items as [|item items IH]; intros usage Hshape Hkind Hex.
  - inversion Hex.
  - apply Forall_cons in Hkind as [[kind Hk] Hkind]. simpl.
    destruct (decide (kind = Some "book")) as [->|Hnb].
    + rewrite place_item_book by assumption.
      destruct (decide (item !! "title" = Some None)) as [Hn|Hn].
      * unfold classify, dict_get. rewrite Hn.
        destruct Hs as [->|[->| ->]]; reflexivity.
      * destruct (classify_shipped _ item Hs Hn) as (loc & Hloc & Hconf).
        rewrite Hloc. simpl.
        destruct (add_to_row_total usage loc (make_entry item) Hshape Hconf)
          as [usage1 H1].
        rewrite H1. simpl. apply IH; try assumption.
        -- rewrite <- Hshape. eapply add_to_row_shape, H1.
        -- apply Exists_cons in Hex as [[_ Hbad]|Hex]; [contradiction | assumption].
    + rewrite (place_item_other _ _ _ kind) by assumption. simpl.
      apply IH; try assumption.
      apply Exists_cons in Hex as [[Hbad _]|Hex]; [congruence | assumption].
Qed.

Lemma untitled_book_records (items : list Item) :
  Exists untitled_book items <-> Exists untitled_book (book_records items).
Proof.
  unfold book_records. rewrite !Exists_exists. split.
  - intros (item & Hin & Hb & Ht). exists item. split; [|now split].
    apply list_elem_of_filter. now split.
  - intros (item & Hin & Hu). exists item. split; [|assumption].
    now apply list_elem_of_filter in Hin as [_ Hin].
Qed.

Lemma book_records_kinds (items : list Item) :
  Forall has_kind (book_records items).
Proof.
  unfold book_records. apply Forall_forall. intros item Hin.
  apply list_elem_of_filter in Hin as [Hb _]. unfold has_kind. rewrite Hb. eauto.
Qed.

(** X7: the run of [main] from the discovered files to the space usage and
    its banners fails in one case only: when a collected book row has the
    title [None] (a line cut short before its title), and then with the
    [AttributeError] of the classifier.  Otherwise it returns the collected
    records with a usage of the configured shape. *)
Theorem main_fails_only_on_untitled_books csv_files :
  let all_items := (ingest csv_files [] []).1 in
  (Exists untitled_book all_items ->
   main csv_files
   = Raise (AttributeError "'NoneType' object has no attribute 'lower'")) /\
  (~ Exists untitled_book all_items ->
   exists usage,
     main csv_files = Ok (all_items, usage, banners usage) /\
     shape usage = configured_shape).
Proof.
  intros all_items.
  destruct (collected_records_are_counted_books csv_files) as [Hrec Hbooks].
  fold all_items in Hrec, Hbooks.
  unfold main. destruct (ingest csv_files [] []) as [items printed] eqn:Hi.
  simpl in all_items. subst all_items. rewrite Hbooks. simpl.
  unfold iterative_balance. split.
  - intros Hex. apply untitled_book_records in Hex.
    unfold calculate_space_usage.
    rewrite (place_items_untitled (Some balanced_categorize_book));
      [reflexivity | now (right; right) | reflexivity
      | apply book_records_kinds | assumption].
  - intros Hno.
    destruct (calculate_space_usage_returns (book_records items)
                (Some balanced_categorize_book)) as (usage0 & Hshape & Hc).
    { right. now right. }
    { apply Forall_forall. intros item Hin. split.
      - pose proof (book_records_kinds items) as Hk.
        rewrite Forall_forall in Hk. now apply Hk.
      - intros Hb Ht. apply Hno, untitled_book_records, Exists_exists.
        exists item. split; [assumption | now split]. }
    rewrite Hc. simpl. eexists. split; [reflexivity|].
    now rewrite shape_with_totals.
Qed.

Lemma main_fails_only_on_untitled_books_witness :
  exists usage,
    main [broken_file; sound_file]
    = Ok ((ingest [broken_file; sound_file] [] []).1, usage, banners usage) /\
    shape usage = configured_shape.
Proof.
  apply (proj2 (main_fails_only_on_untitled_books [broken_file; sound_file])).
  intros H. apply Exists_exists in H as (item & Hin & _ & Ht).
  vm_compute in Hin.
  repeat (apply elem_of_cons in Hin as [->|Hin]; [discriminate Ht|]).
  inversion Hin.
Defined.

End Pipeline.

(** * Two readings of one utilization *)

Section Thresholds.

Lemma console_status_over (u : Q) : console_status u = Over <-> (100 < u)%Q.
Proof.
  unfold console_status. destruct (Qle_bool u 100) eqn:E.
  - apply Qle_bool_iff in E. split; [discriminate | lra].
  - split; [intros _|reflexivity]. apply Qnot_le_lt.
    rewrite <- Qle_bool_iff. congruence.
Qed.

(** X8: [iterative_balance] lists a shelf as over capacity, and [main]
    prints "Over" for it, exactly when its utilization exceeds 100, and then
    the report's banner is the over-capacity one as well; but for a
    utilization above 90 and at most 100 the console says "Good" while the
    banner of the report says over capacity. *)
Theorem console_and_banner_disagree_between_90_and_100
    (space_usage : SpaceUsage) (u : Q) :
  (forall shelf_id util,
      (shelf_id, util) ∈ shelves_over_capacity space_usage <->
      exists shelf, (shelf_id, shelf) ∈ space_usage /\
                    util = utilization shelf /\ console_status util = Over) /\
  (console_status u = Over <-> (100 < u)%Q) /\
  (console_status u = Over -> status_class u = over_capacity) /\
  ((90 < u)%Q /\ (u <= 100)%Q ->
   console_status u = Good /\ status_class u = over_capacity).
Proof.
  split; [|split; [apply console_status_over|split]].
  - intros shelf_id util. unfold shelves_over_capacity.
    rewrite list_elem_of_omap. split.
    + intros ([id shelf] & Hin & Hf). simpl in Hf.
      destruct (Qle_bool (utilization shelf) 100) eqn:E; simpl in Hf;
        [discriminate|].
      injection Hf as <- <-. exists shelf. repeat split; [assumption|].
      unfold console_status. now rewrite E.
    + intros (shelf & Hin & -> & Hover). exists (shelf_id, shelf).
      split; [assumption|]. simpl. unfold console_status in Hover.
      destruct (Qle_bool (utilization shelf) 100); [discriminate | reflexivity].
  - intros H. apply console_status_over in H. apply status_class_bands. lra.
  - intros [H90 H100]. split.
    + destruct (console_status u) eqn:E; [reflexivity|].
      apply console_status_over in E. lra.
    + now apply status_class_bands.
Qed.

Lemma console_and_banner_disagree_between_90_and_100_witness :
  console_status 95 = Good /\ status_class 95 = over_capacity.
Proof.
  apply (proj2 (proj2 (proj2
           (console_and_banner_disagree_between_90_and_100 [] 95)))).
  split; [reflexivity | unfold Qle; simpl; lia].
Defined.

End Thresholds.

(** * The report *)

Section Escaping.

Lemma list_ascii_app (a b : string) :
  list_ascii_of_string (a +:+ b)
  = list_ascii_of_string a ++ list_ascii_of_string b.
Proof. induction a as [|c a IH]; simpl; [reflexivity | now rewrite IH]. Qed.

Lemma escape_char_markup_free (c : ascii) : markup_free (escape_char c).
Proof.
  unfold escape_char, markup_free.
  destruct (Ascii.eqb c "&") eqn:E1; [repeat constructor|].
  destruct (Ascii.eqb c "<") eqn:E2; [repeat constructor|].
  destruct (Ascii.eqb c ">") eqn:E3; [repeat constructor|].
  destruct (Ascii.eqb c (ascii_of_nat 34)) eqn:E4; [repeat constructor|].
  destruct (Ascii.eqb c "'") eqn:E5; [repeat constructor|].
  simpl. constructor; [|constructor].
  unfold markup_char. now rewrite E2, E3, E4, E5.
Qed.

Lemma html_escape_markup_free (s : string) : markup_free (html_escape s).
Proof.
  unfold markup_free. induction s as [|c s IH]; simpl; [constructor|].
  rewrite list_ascii_app. apply Forall_app. split; [|exact IH].
  apply escape_char_markup_free.
Qed.

Lemma book_line_markup_free (book : Entry) (line : BookLine) :
  book_line book = Rendered line ->
  markup_free (bl_title line) /\ markup_free (bl_author line).
Proof.
  unfold book_line, escape_cell.
  destruct (e_title book) as [t|]; [|discriminate].
  destruct (e_author book) as [a|]; [|discriminate].
  simpl. intros [= <-]. simpl. split; apply html_escape_markup_free.
Qed.

Lemma rendered_bind_inv {A B} (m : rendered A) (k : A -> rendered B) (b : B) :
  m ≫= k = Rendered b -> exists a, m = Rendered a /\ k a = Rendered b.
Proof. destruct m as [a|e]; simpl; [eauto | discriminate]. Qed.

Lemma book_lines_markup_free (books : list Entry) (lines : list BookLine) :
  book_lines books = Rendered lines ->
  Forall (fun line => markup_free (bl_title line) /\ markup_free (bl_author line))
         lines.
Proof.
  revert lines. induction books as [|book books IH]; intros lines H.
  - injection H as <-. constructor.
  - simpl in H. apply rendered_bind_inv in H as (line & Hl & H).
    apply rendered_bind_inv in H as (rest & Hr & H). injection H as <-.
    constructor; [now apply (book_line_markup_free book) | now apply IH].
Qed.

Lemma row_sections_markup_free (usage : option ShelfUsage)
    (shelf_rows : list (Z * string)) (rows : list RowSection) :
  row_sections usage shelf_rows = Rendered rows ->
  Forall (fun line => markup_free (bl_title line) /\ markup_free (bl_author line))
         (concat (rs_lines <$> rows)).
Proof.
  revert rows. induction shelf_rows as [|row rest IH]; intros rows H.
  - injection H as <-. constructor.
  - simpl in H. apply rendered_bind_inv in H as (section & Hs & H).
    apply rendered_bind_inv in H as (sections & Hr & H). injection H as <-.
    simpl. apply Forall_app. split; [|now apply IH].
    unfold row_section in Hs.
    apply rendered_bind_inv in Hs as (books & _ & Hs).
    apply rendered_bind_inv in Hs as (lines & Hl & Hs). injection Hs as <-.
    simpl. now apply (book_lines_markup_free books).
Qed.

(** X9: in every report that is rendered, no title cell and no author cell
    contains a character that opens or closes markup or an attribute value
    (less-than, greater-than, double or single quote): both cells go
    through [html.escape]. *)
Theorem report_cells_are_escaped (space_usage : SpaceUsage)
    (organization : list (string * list (Z * string)))
    (sections : list (string * list RowSection)) :
  shelf_sections space_usage organization = Rendered sections ->
  Forall (fun line => markup_free (bl_title line) /\ markup_free (bl_author line))
         (report_lines sections).
Proof.
  revert sections.
  induction organization as [|[shelf_id shelf_rows] rest IH]; intros sections H.
  - injection H as <-. constructor.
  - simpl in H. apply rendered_bind_inv in H as (rows & Hrows & H).
    apply rendered_bind_inv in H as (shelves & Hsh & H). injection H as <-.
    unfold report_lines. simpl. apply Forall_app. split.
    + exact (row_sections_markup_free _ _ _ Hrows).
    + now apply IH.
Qed.

Lemma report_cells_are_escaped_witness :
  Forall (fun line => markup_free (bl_title line) /\ markup_free (bl_author line))
         (report_lines sample_sections).
Proof.
  apply (report_cells_are_escaped sample_usage ORGANIZATION sample_sections).
  vm_compute. reflexivity.
Defined.

End Escaping.

Section Sorting.

Implicit Types (e : Entry) (l : list Entry).

Lemma ltb_asym (x y : string) : String.ltb x y = true -> String.ltb y x = false.
Proof.
  unfold String.ltb. rewrite (String.compare_antisym x y).
  now destruct (String.compare y x).
Qed.

Lemma ltb_irrefl (x : string) : String.ltb x x = false.
Proof.
  destruct (String.ltb x x) eqn:E; [|reflexivity].
  pose proof (ltb_asym x x E). congruence.
Qed.

Lemma insert_by_title_perm e l : insert_by_title e l ≡ₚ e :: l.
Proof.
  induction l as [|e' l IH]; simpl; [reflexivity|].
  destruct (String.ltb (title_key e') (title_key e)); [|reflexivity].
  rewrite IH. apply Permutation_swap.
Qed.

Lemma sort_by_title_perm l : sort_by_title l ≡ₚ l.
Proof.
  induction l as [|e l IH]; simpl; [reflexivity|].
  now rewrite insert_by_title_perm, IH.
Qed.

Lemma insert_by_title_HdRel (a e : Entry) l :
  HdRel title_ascending a l -> title_ascending a e ->
  HdRel title_ascending a (insert_by_title e l).
Proof.
  intros Hl He. destruct l as [|e' l]; simpl; [now constructor|].
  destruct (String.ltb (title_key e') (title_key e)).
  - constructor. now inversion Hl.
  - now constructor.
Qed.

Lemma insert_by_title_sorted e l :
  Sorted title_ascending l -> Sorted title_ascending (insert_by_title e l).
Proof.
  induction l as [|e' l IH]; intros Hs; simpl.
  - repeat constructor.
  - destruct (String.ltb (title_key e') (title_key e)) eqn:E.
    + inversion Hs as [|? ? Hs' Hd]; subst. constructor; [now apply IH|].
      apply insert_by_title_HdRel; [assumption|].
      unfold title_ascending. now apply ltb_asym.
    + constructor; [assumption|]. constructor. exact E.
Qed.

Lemma sort_by_title_sorted l : Sorted title_ascending (sort_by_title l).
Proof.
  induction l as [|e l IH]; simpl; [constructor | now apply insert_by_title_sorted].
Qed.

(** Books with one and the same title keep the order they had. *)
Lemma insert_by_title_stable (k : string) e l :
  filter (fun x => title_key x = k) (insert_by_title e l)
  = filter (fun x => title_key x = k) (e :: l).
Proof.
  induction l as [|e' l IH]; simpl; [reflexivity|].
  destruct (String.ltb (title_key e') (title_key e)) eqn:E; [|reflexivity].
  rewrite !filter_cons in *. rewrite IH.
  destruct (decide (title_key e' = k)) as [Hk'|]; [|reflexivity].
  destruct (decide (title_key e = k)) as [Hk|]; [|reflexivity].
  rewrite Hk, Hk', ltb_irrefl in E. discriminate.
Qed.

Lemma sort_by_title_stable (k : string) l :
  filter (fun x => title_key x = k) (sort_by_title l)
  = filter (fun x => title_key x = k) l.
Proof.
  induction l as [|e l IH]; simpl; [reflexivity|].
  rewrite insert_by_title_stable, !filter_cons, IH. reflexivity.
Qed.

Lemma book_lines_length (books : list Entry) (lines : list BookLine) :
  book_lines books = Rendered lines -> length lines = length books.
Proof.
  revert lines. induction books as [|book books IH]; intros lines H.
  - now injection H as <-.
  - simpl in H. apply rendered_bind_inv in H as (line & _ & H).
    apply rendered_bind_inv in H as (rest & Hr & H). injection H as <-.
    simpl. f_equal. now apply IH.
Qed.

(** X10: a rendered row lists the books of the row in ascending order of
    their titles (compared case-sensitively, character by character), each
    book once, books of equal title in the order in which they were
    placed; and the count in the row's header is the number of lines. *)
Theorem rows_are_listed_by_title (usage : option ShelfUsage)
    (row : Z * string) (section : RowSection) :
  row_section usage row = Rendered section ->
  let row_books := row_items (row_usage_of usage row.1) in
  exists books,
    book_lines books = Rendered (rs_lines section) /\
    books ≡ₚ row_books /\
    Sorted title_ascending books /\
    (forall k, filter (fun x => title_key x = k) books
               = filter (fun x => title_key x = k) row_books) /\
    rs_count section = length (rs_lines section).
Proof.
  intros H row_books. unfold row_section in H.
  apply rendered_bind_inv in H as (books & Hsort & H).
  apply rendered_bind_inv in H as (lines & Hlines & H). injection H as <-.
  fold row_books in Hsort. simpl.
  assert (books = sort_by_title row_books) as ->.
  { unfold sorted_by_title in Hsort.
    destruct (_ && _); [discriminate | now injection Hsort]. }
  exists (sort_by_title row_books). repeat split.
  - exact Hlines.
  - apply sort_by_title_perm.
  - apply sort_by_title_sorted.
  - intros k. apply sort_by_title_stable.
  - rewrite (book_lines_length _ _ Hlines).
    now rewrite (Permutation_length (sort_by_title_perm row_books)).
Qed.

Lemma rows_are_listed_by_title_witness :
  exists books,
    book_lines books = Rendered (rs_lines sample_row_section) /\
    books ≡ₚ row_items (row_usage_of (alist_get "hallway" sample_usage) 2) /\
    Sorted title_ascending books /\
    (forall k, filter (fun x => title_key x = k) books
               = filter (fun x => title_key x = k)
                   (row_items (row_usage_of (alist_get "hallway" sample_usage) 2))) /\
    rs_count sample_row_section = length (rs_lines sample_row_section).
Proof.
  apply (rows_are_listed_by_title (alist_get "hallway" sample_usage)
           (2, "Literature, Fiction & Classics") sample_row_section).
  vm_compute. reflexivity.
Defined.

End Sorting.

Section Listing.

Implicit Types (usage : SpaceUsage) (books : list Entry).

Lemma configured_shape_value :
  configured_shape
  = [ ("office_a", 160, [1; 2; 3; 4; 5]); ("office_b", 128, [1; 2; 3; 4]);
      ("dining", 72, [1; 2; 3]); ("hallway", 32, [1; 2]);
      ("crate_h", 32, [1]); ("crate_v", 12, [1]) ].
Proof. reflexivity. Qed.

Ltac explode_keys :=
  repeat match goal with
         | H : fst <$> ?l = _ :: _ |- _ =>
             destruct l as [|[? ?] ?]; simplify_eq/=
         | H : fst <$> ?l = [] |- _ => destruct l; simplify_eq/=
         end.

(** The rows that [ORGANIZATION] names are the rows of the configuration:
    the report lists what the usage holds. *)
Lemma listed_entries_perm usage :
  shape usage = configured_shape ->
  listed_entries usage ORGANIZATION ≡ₚ all_entries usage.
Proof.
  intros H. rewrite configured_shape_value in H. unfold shape in H.
  do 7 (destruct usage as [|[? [? ? ? ?]] usage]; simplify_eq/=).
  unfold alist_keys in *. explode_keys.
  unfold listed_entries, all_entries, all_rows, ORGANIZATION. simpl.
  rewrite !app_nil_r, !sort_by_title_perm, <- !app_assoc. reflexivity.
Qed.

Lemma book_lines_app books1 books2 (lines1 lines2 : list BookLine) :
  book_lines books1 = Rendered lines1 ->
  book_lines books2 = Rendered lines2 ->
  book_lines (books1 ++ books2) = Rendered (lines1 ++ lines2).
Proof.
  revert lines1. induction books1 as [|book books1 IH]; intros lines1 H1 H2.
  - now injection H1 as <-.
  - simpl in H1. apply rendered_bind_inv in H1 as (line & Hl & H1).
    apply rendered_bind_inv in H1 as (rest & Hr & H1). injection H1 as <-.
    simpl. rewrite Hl. simpl. rewrite (IH rest Hr H2). reflexivity.
Qed.

Lemma row_sections_lines (usage : option ShelfUsage)
    (shelf_rows : list (Z * string)) (rows : list RowSection) :
  row_sections usage shelf_rows = Rendered rows ->
  book_lines
    (concat ((fun row : Z * string =>
                sort_by_title (row_items (row_usage_of usage row.1)))
               <$> shelf_rows))
  = Rendered (concat (rs_lines <$> rows)).
Proof.
  revert rows. induction shelf_rows as [|row rest IH]; intros rows H.
  - now injection H as <-.
  - simpl in H. apply rendered_bind_inv in H as (section & Hs & H).
    apply rendered_bind_inv in H as (sections & Hr & H). injection H as <-.
    simpl. apply book_lines_app; [|now apply IH].
    unfold row_section in Hs.
    apply rendered_bind_inv in Hs as (books & Hsort & Hs).
    apply rendered_bind_inv in Hs as (lines & Hl & Hs). injection Hs as <-.
    simpl. unfold sorted_by_title in Hsort.
    destruct (_ && _); [discriminate|]. now injection Hsort as <-.
Qed.

Lemma shelf_sections_lines usage
    (organization : list (string * list (Z * string)))
    (sections : list (string * list RowSection)) :
  shelf_sections usage organization = Rendered sections ->
  book_lines (listed_entries usage organization)
  = Rendered (report_lines sections).
Proof.
  revert sections.
  induction organization as [|[shelf_id shelf_rows] rest IH]; intros sections H.
  - now injection H as <-.
  - simpl in H. apply rendered_bind_inv in H as (rows & Hrows & H).
    apply rendered_bind_inv in H as (shelves & Hsh & H). injection H as <-.
    unfold listed_entries, report_lines. simpl.
    apply book_lines_app; [now apply row_sections_lines | now apply IH].
Qed.

Lemma calculate_space_usage_entries (items : list Item)
    (categorizer_func : option Categorizer) usage :
  calculate_space_usage items categorizer_func = Ok usage ->
  shape usage = configured_shape /\
  all_entries usage ≡ₚ make_entry <$> book_records items.
Proof.
  intros H. apply calculate_space_usage_inv in H as (usage0 & Hp & ->).
  apply place_items_inv in Hp as (Hshape & _ & Hent).
  destruct init_usage_empty as (_ & Hnil & Hinit).
  rewrite Hnil in Hent. split.
  - now rewrite shape_with_totals, Hshape.
  - unfold all_entries. rewrite all_rows_with_totals. exact Hent.
Qed.

(** X11: when the report of a usage that [calculate_space_usage] returned
    is rendered, its lines are the lines of the book records, each record
    once: no placed book is missing from the report, none is listed twice,
    and nothing else is listed. *)
Theorem report_lists_every_book_once (items : list Item)
    (categorizer_func : option Categorizer) (usage : SpaceUsage)
    (sections : list (string * list RowSection)) :
  calculate_space_usage items categorizer_func = Ok usage ->
  shelf_sections usage ORGANIZATION = Rendered sections ->
  exists listed,
    listed ≡ₚ make_entry <$> book_records items /\
    book_lines listed = Rendered (report_lines sections) /\
    length (report_lines sections) = length (book_records items).
Proof.
  intros Hc Hs. apply calculate_space_usage_entries in Hc as [Hshape Hent].
  pose proof (shelf_sections_lines _ _ _ Hs) as Hl.
  assert (listed_entries usage ORGANIZATION ≡ₚ make_entry <$> book_records items)
    as Hp by (now rewrite listed_entries_perm).
  exists (listed_entries usage ORGANIZATION). repeat split; try assumption.
  rewrite (book_lines_length _ _ Hl), (Permutation_length Hp).
  apply length_fmap.
Qed.

Lemma report_lists_every_book_once_witness :
  exists listed,
    listed ≡ₚ make_entry <$> book_records sample_items /\
    book_lines listed = Rendered (report_lines sample_sections) /\
    length (report_lines sample_sections) = length (book_records sample_items).
Proof.
  apply (report_lists_every_book_once sample_items None sample_usage
           sample_sections); vm_compute; reflexivity.
Defined.

Lemma book_lines_outcome books :
  Forall (fun e => e_title e <> None) books ->
  match book_lines books with
  | Rendered _ => Forall (fun e => e_author e <> None) books
  | RenderError err =>
      err = HtmlAttributeError "'NoneType' object has no attribute 'replace'" /\
      Exists (fun e => e_author e = None) books
  end.
Proof.
  induction 1 as [|book books Ht _ IH]; simpl; [constructor|].
  unfold book_line, escape_cell.
  destruct (e_title book) as [t|]; [|contradiction]. simpl.
  destruct (e_author book) as [a|] eqn:Ha; simpl.
  - destruct (book_lines books) as [lines|err]; simpl.
    + constructor; [congruence | assumption].
    + destruct IH as [-> Hex]. split; [reflexivity | now right].
  - split; [reflexivity | now left].
Qed.

Lemma sorted_by_title_titled books :
  Forall (fun e => e_title e <> None) books ->
  sorted_by_title books = Rendered (sort_by_title books).
Proof.
  intros H. unfold sorted_by_title.
  assert (existsb (fun e => bool_decide (e_title e = None)) books = false) as ->.
  { induction H as [|book books Ht _ IH]; simpl; [reflexivity|].
    now rewrite bool_decide_eq_false_2, IH. }
  now rewrite andb_false_r.
Qed.

Lemma row_sections_outcome (usage : option ShelfUsage)
    (shelf_rows : list (Z * string)) :
  let listed :=
    concat ((fun row : Z * string =>
               sort_by_title (row_items (row_usage_of usage row.1)))
              <$> shelf_rows) in
  Forall (fun e => e_title e <> None) listed ->
  match row_sections usage shelf_rows with
  | Rendered _ => Forall (fun e => e_author e <> None) listed
  | RenderError err =>
      err = HtmlAttributeError "'NoneType' object has no attribute 'replace'" /\
      Exists (fun e => e_author e = None) listed
  end.
Proof.
  induction shelf_rows as [|row rest IH]; simpl; [constructor|].
  intros Ht. apply Forall_app in Ht as [Ht1 Ht2].
  unfold row_section. rewrite sorted_by_title_titled
    by (now rewrite <- (sort_by_title_perm _)).
  simpl. pose proof (book_lines_outcome _ Ht1) as H1.
  destruct (book_lines (sort_by_title _)) as [lines|err]; simpl.
  - specialize (IH Ht2). simpl in IH.
    destruct (row_sections usage rest) as [sections|err]; simpl.
    + apply Forall_app. now split.
    + destruct IH as [-> Hex]. split; [reflexivity|].
      apply Exists_app. now right.
  - destruct H1 as [-> Hex]. split; [reflexivity|]. apply Exists_app. now left.
Qed.

Lemma shelf_sections_outcome usage
    (organization : list (string * list (Z * string))) :
  Forall (fun e => e_title e <> None) (listed_entries usage organization) ->
  match shelf_sections usage organization with
  | Rendered _ =>
      Forall (fun e => e_author e <> None) (listed_entries usage organization)
  | RenderError err =>
      err = HtmlAttributeError "'NoneType' object has no attribute 'replace'" /\
      Exists (fun e => e_author e = None) (listed_entries usage organization)
  end.
Proof.
  induction organization as [|[shelf_id shelf_rows] rest IH];
    [constructor|].
  unfold listed_entries. simpl. fold (listed_entries usage rest).
  intros Ht. apply Forall_app in Ht as [Ht1 Ht2].
  pose proof (row_sections_outcome (alist_get shelf_id usage) shelf_rows Ht1)
    as H1.
  destruct (row_sections _ shelf_rows) as [rows|err]; simpl.
  - specialize (IH Ht2).
    destruct (shelf_sections usage rest) as [shelves|err]; simpl.
    + apply Forall_app. now split.
    + destruct IH as [-> Hex]. split; [reflexivity|].
      apply Exists_app. now right.
  - destruct H1 as [-> Hex]. split; [reflexivity|]. apply Exists_app. now left.
Qed.

(** X12: for records that carry a kind and whose books have a string for a
    title, placed by a shipped classifier, the shelf sections of the report
    are rendered exactly when no book record has [None] for its creators;
    a book row cut short before its creators column makes the rendering
    raise [AttributeError], after the space calculation has succeeded. *)
Theorem report_fails_on_missing_creators (items : list Item)
    (categorizer_func : option Categorizer) :
  shipped categorizer_func ->
  Forall input_record items ->
  exists usage,
    calculate_space_usage items categorizer_func = Ok usage /\
    (Forall (fun item => item !! "creators" <> Some None) (book_records items) ->
     exists sections, shelf_sections usage ORGANIZATION = Rendered sections) /\
    (Exists (fun item => item !! "creators" = Some None) (book_records items) ->
     shelf_sections usage ORGANIZATION
     = RenderError (HtmlAttributeError
                      "'NoneType' object has no attribute 'replace'")).
Proof.
  intros Hs Hin.
  destruct (calculate_space_usage_returns items categorizer_func Hs Hin)
    as (usage0 & _ & Hc).
  eexists. split; [exact Hc|].
  destruct (calculate_space_usage_entries _ _ _ Hc) as [Hshape Hent].
  set (usage := (fun p => (p.1, with_totals p.2)) <$> usage0) in *.
  pose proof (listed_entries_perm usage Hshape) as Hperm.
  rewrite Hent in Hperm.
  assert (forall item, e_author (make_entry item) = None <->
                       item !! "creators" = Some None) as Hauthor.
  { intros item. unfold make_entry, dict_get. simpl.
    destruct (item !! "creators") as [[a|]|]; split; congruence. }
  assert (Forall (fun e => e_title e <> None) (listed_entries usage ORGANIZATION))
    as Ht.
  { rewrite Hperm. apply Forall_fmap, Forall_forall. intros item Hitem.
    apply list_elem_of_filter in Hitem as [Hbook Hitem].
    rewrite Forall_forall in Hin. destruct (Hin item Hitem) as [_ Htitle].
    specialize (Htitle Hbook). unfold make_entry, dict_get. simpl.
    destruct (item !! "title") as [[t|]|]; congruence. }
  pose proof (shelf_sections_outcome usage ORGANIZATION Ht) as Hout.
  split.
  - intros Hall.
    destruct (shelf_sections usage ORGANIZATION) as [sections|err]; [eauto|].
    destruct Hout as [_ Hex]. rewrite Hperm in Hex.
    apply Exists_exists in Hex as (e & He & Hnone).
    apply list_elem_of_fmap in He as (item & -> & Hitem).
    rewrite Forall_forall in Hall. apply Hauthor in Hnone.
    now destruct (Hall item Hitem).
  - intros Hex.
    destruct (shelf_sections usage ORGANIZATION) as [sections|err].
    + rewrite Hperm in Hout. apply Exists_exists in Hex as (item & Hitem & Hnone).
      rewrite Forall_forall in Hout.
      destruct (Hout (make_entry item)).
      * apply list_elem_of_fmap. eauto.
      * now apply Hauthor.
    + now destruct Hout as [-> _].
Qed.

Lemma report_fails_on_missing_creators_witness :
  exists usage,
    calculate_space_usage [genki_record; authorless_book] None = Ok usage /\
    (Forall (fun item => item !! "creators" <> Some None)
            (book_records [genki_record; authorless_book]) ->
     exists sections, shelf_sections usage ORGANIZATION = Rendered sections) /\
    (Exists (fun item => item !! "creators" = Some None)
            (book_records [genki_record; authorless_book]) ->
     shelf_sections usage ORGANIZATION
     = RenderError (HtmlAttributeError
                      "'NoneType' object has no attribute 'replace'")).
Proof.
  apply (report_fails_on_missing_creators [genki_record; authorless_book] None).
  - now left.
  - repeat constructor; try (eexists; reflexivity); discriminate.
Defined.

End Listing.

(** * The browser session *)

Section Session.

Import Screenshot.

Implicit Types (env : Browser) (wait_seconds : Z).







End Session.
